(** * IKB sports-statistics plugin: query interpretation, formatting, handler

    A shallow embedding of [src/plugins/ikb/index.ts] and the properties of
    its query interpreter, its three text views and its action handler.

    Modelling conventions.
    - A JavaScript string is a [string]: one [ascii] per code unit, read as
      the code units U+0000 to U+00FF.
    - A [number] holding a count is a [Z], rendered by [NumberToString] as the
      plain decimal numeral (what JavaScript prints for integers of magnitude
      below 10^21).  A [number] holding a percentage or a fantasy-points
      value is a [Q], the exact value of the double.
    - A [Date] is its time value, milliseconds since the epoch, as a [Z].
    - A call that can throw returns [Error + A]; the handler runs in a small
      monad that threads the limiter state and the trace of external calls. *)

From Stdlib Require Import Bool Ascii String List ZArith QArith Qround Lia.
From Stdlib Require Import Permutation Sorted.
From Stdlib Require Import Qabs.
Import ListNotations.

Local Open Scope string_scope.
Local Open Scope Z_scope.

(* ================================================================== *)
(** ** JavaScript built-ins used by the plugin *)
(* ================================================================== *)

Module JS.

(** The line feed of the ['\n'] escapes. *)
Definition LFchar : ascii := ascii_of_nat 10.
Definition LF : string := String LFchar "".

Definition charCode (c : ascii) : Z := Z.of_N (N_of_ascii c).
Definition fromCharCode (n : Z) : ascii := ascii_of_N (Z.to_N n).

(** [\d] of a regular expression without the [u] flag: ASCII digits. *)
Definition isDigit (c : ascii) : bool :=
  (48 <=? charCode c) && (charCode c <=? 57).

(** Lower-case mapping of one code unit: A-Z, and the capital letters of
    the Latin-1 block (U+00C0 to U+00DE but the multiplication sign). *)
Definition lowerChar (c : ascii) : ascii :=
  let n := charCode c in
  if ((65 <=? n) && (n <=? 90))
     || ((192 <=? n) && (n <=? 222) && negb (n =? 215))
  then fromCharCode (n + 32) else c.

(** Upper-case mapping, for the code units whose capital is one code unit of
    the same range: a-z and U+00E0 to U+00FE but the division sign. *)
Definition upperChar (c : ascii) : ascii :=
  let n := charCode c in
  if ((97 <=? n) && (n <=? 122))
     || ((224 <=? n) && (n <=? 254) && negb (n =? 247))
  then fromCharCode (n - 32) else c.

Fixpoint mapChars (f : ascii -> ascii) (s : string) : string :=
  match s with
  | EmptyString => EmptyString
  | String c s' => String (f c) (mapChars f s')
  end.

(** [String.prototype.toLowerCase] and [toUpperCase]. *)
Definition toLowerCase (s : string) : string := mapChars lowerChar s.
Definition toUpperCase (s : string) : string := mapChars upperChar s.

(** [String.prototype.includes]: does [search] occur in [s]? *)
Fixpoint includes (s search : string) : bool :=
  if String.prefix search s then true
  else match s with
       | EmptyString => false
       | String _ s' => includes s' search
       end.

(** [Array.prototype.join]. *)
Definition join (sep : string) (parts : list string) : string :=
  String.concat sep parts.

(** [String.prototype.repeat] for a one-character string. *)
Fixpoint repeatChar (c : ascii) (n : nat) : string :=
  match n with
  | O => EmptyString
  | S n' => String c (repeatChar c n')
  end.

(** [String.prototype.padStart] with a one-character fill string. *)
Definition padStart (targetLength : nat) (fill : ascii) (s : string) : string :=
  repeatChar fill (targetLength - String.length s) ++ s.

(** [String.prototype.split] with a one-character separator. *)
Fixpoint split (sep : ascii) (s : string) : list string :=
  match s with
  | EmptyString => [EmptyString]
  | String c s' =>
      if Ascii.eqb c sep then EmptyString :: split sep s'
      else match split sep s' with
           | [] => [String c EmptyString]
           | piece :: rest => String c piece :: rest
           end
  end.

(** Decimal digits of a non-negative integer, most significant first. *)
Fixpoint digitsFrom (fuel : nat) (n : Z) (acc : string) : string :=
  let acc' := String (fromCharCode (48 + n mod 10)) acc in
  match fuel with
  | O => acc'
  | S fuel' => if n <? 10 then acc' else digitsFrom fuel' (n / 10) acc'
  end.

Definition digits (n : Z) : string :=
  digitsFrom (Z.to_nat (Z.log2 n)) n EmptyString.

(** [Number::toString] on an integer: the decimal numeral, with a minus
    sign below zero. *)
Definition NumberToString (n : Z) : string :=
  if n <? 0 then "-" ++ digits (- n) else digits n.

(** A thrown value: an [Error] with its [name] and [message]. *)
Record Error : Type := mkError { errorName : string; errorMessage : string }.

(** [Number.prototype.toFixed] on a finite number below 10^21: a
    [RangeError] unless [0 <= fractionDigits <= 100]; otherwise the sign,
    then the integer [n] for which [n / 10^f - x] is closest to zero (the
    larger on a tie), with a point before its last [f] digits. *)
Definition toFixed (fractionDigits : Z) (x : Q) : Error + string :=
  if (fractionDigits <? 0) || (100 <? fractionDigits)
  then inl (mkError "RangeError" "toFixed() digits argument must be between 0 and 100")
  else
    let f := Z.to_nat fractionDigits in
    let neg := Qlt_le_dec x 0 in
    let ax := if neg then Qopp x else x in
    let n := Qfloor (Qplus (Qmult ax (inject_Z (10 ^ fractionDigits))) (1 # 2)) in
    let m := digits n in
    let m := if (f =? 0)%nat then m
             else
               let m' := padStart (S f) "0" m in
               let k := String.length m' in
               substring 0 (k - f) m' ++ "." ++ substring (k - f) f m' in
    inr ((if neg then "-" else "") ++ m).

(** [Array.prototype.sort(comparefn)].  The sort is stable, so with a
    consistent comparator every engine yields the array that insertion
    from the right yields: [x] goes before the first [y] it does not
    have to follow ([comparefn(x, y) <= 0]). *)
Fixpoint insertBy {A : Type} (comparefn : A -> A -> Q) (x : A) (l : list A)
  : list A :=
  match l with
  | [] => [x]
  | y :: l' =>
      if Qle_bool (comparefn x y) 0 then x :: y :: l'
      else y :: insertBy comparefn x l'
  end.

Definition sort {A : Type} (comparefn : A -> A -> Q) (l : list A) : list A :=
  fold_right (insertBy comparefn) [] l.

(** [Array.prototype.slice(start, end)] with indices inside [0, 2^53). *)
Definition slice {A : Type} (start stop : nat) (l : list A) : list A :=
  firstn (stop - start) (skipn start l).

(** [x || 0] on a number that may be missing: every falsy number is 0. *)
Definition orZero (x : option Q) : Q :=
  match x with
  | Some q => q
  | None => 0%Q
  end.

(** A regular expression that is a sequence of one-character atoms. *)
Inductive Atom : Type :=
| Digit
| Lit (c : ascii).

Definition atomMatches (a : Atom) (c : ascii) : bool :=
  match a with
  | Digit => isDigit c
  | Lit x => Ascii.eqb x c
  end.

(** The text the pattern matches at the start of [s], if it does. *)
Fixpoint matchHere (re : list Atom) (s : string) : option string :=
  match re with
  | [] => Some EmptyString
  | a :: re' =>
      match s with
      | EmptyString => None
      | String c s' =>
          if atomMatches a c
          then option_map (String c) (matchHere re' s')
          else None
      end
  end.

(** [s.match(re)] without the [g] flag: element 0 of the result, the
    leftmost match, or [None] for [null]. *)
Fixpoint matchFirst (re : list Atom) (s : string) : option string :=
  match matchHere re s with
  | Some m => Some m
  | None =>
      match s with
      | EmptyString => None
      | String _ s' => matchFirst re s'
      end
  end.

End JS.

(* ================================================================== *)
(** ** Dates: the day and year arithmetic behind [toISOString] *)
(* ================================================================== *)

Module JSDate.

Definition msPerDay : Z := 86400000.

Definition Day (t : Z) : Z := t / msPerDay.
Definition TimeWithinDay (t : Z) : Z := t mod msPerDay.

Definition DaysInYear (y : Z) : Z :=
  if negb (y mod 4 =? 0) then 365
  else if negb (y mod 100 =? 0) then 366
  else if negb (y mod 400 =? 0) then 365
  else 366.

Definition DayFromYear (y : Z) : Z :=
  365 * (y - 1970) + (y - 1969) / 4 - (y - 1901) / 100 + (y - 1601) / 400.

(** The largest [y] with [DayFromYear y <= Day t]: the estimate from the
    mean year length is off by at most one. *)
Definition YearFromTime (t : Z) : Z :=
  let d := Day t in
  let y := 1970 + (400 * d) / 146097 in
  if d <? DayFromYear y then y - 1
  else if DayFromYear (y + 1) <=? d then y + 1
  else y.

Definition InLeapYear (t : Z) : Z :=
  if DaysInYear (YearFromTime t) =? 366 then 1 else 0.

Definition DayWithinYear (t : Z) : Z := Day t - DayFromYear (YearFromTime t).

Definition MonthFromTime (t : Z) : Z :=
  let d := DayWithinYear t in
  let leap := InLeapYear t in
  if d <? 31 then 0
  else if d <? 59 + leap then 1
  else if d <? 90 + leap then 2
  else if d <? 120 + leap then 3
  else if d <? 151 + leap then 4
  else if d <? 181 + leap then 5
  else if d <? 212 + leap then 6
  else if d <? 243 + leap then 7
  else if d <? 273 + leap then 8
  else if d <? 304 + leap then 9
  else if d <? 334 + leap then 10
  else 11.

Definition DateFromTime (t : Z) : Z :=
  let d := DayWithinYear t in
  let leap := InLeapYear t in
  match MonthFromTime t with
  | 0 => d + 1
  | 1 => d - 30
  | 2 => d - 58 - leap
  | 3 => d - 89 - leap
  | 4 => d - 119 - leap
  | 5 => d - 150 - leap
  | 6 => d - 180 - leap
  | 7 => d - 211 - leap
  | 8 => d - 242 - leap
  | 9 => d - 272 - leap
  | 10 => d - 303 - leap
  | _ => d - 333 - leap
  end.

Definition HourFromTime (t : Z) : Z := (t / 3600000) mod 24.
Definition MinFromTime (t : Z) : Z := (t / 60000) mod 60.
Definition SecFromTime (t : Z) : Z := (t / 1000) mod 60.
Definition msFromTime (t : Z) : Z := t mod 1000.

Definition pad (width : nat) (n : Z) : string :=
  JS.padStart width "0" (JS.digits n).

(** The year of the ISO format: four digits from 0 to 9999, otherwise a
    sign and six digits. *)
Definition isoYear (y : Z) : string :=
  if (0 <=? y) && (y <=? 9999) then pad 4 y
  else if y <? 0 then "-" ++ pad 6 (- y)
  else "+" ++ pad 6 y.

Definition isoDate (t : Z) : string :=
  isoYear (YearFromTime t) ++ "-" ++ pad 2 (MonthFromTime t + 1)
    ++ "-" ++ pad 2 (DateFromTime t).

Definition isoTime (t : Z) : string :=
  pad 2 (HourFromTime t) ++ ":" ++ pad 2 (MinFromTime t) ++ ":"
    ++ pad 2 (SecFromTime t) ++ "." ++ pad 3 (msFromTime t) ++ "Z".

(** [Date.prototype.toISOString] of a valid date. *)
Definition toISOString (t : Z) : string := isoDate t ++ "T" ++ isoTime t.

End JSDate.

(* ================================================================== *)
(** ** Data model: the interfaces of [index.ts] *)
(* ================================================================== *)

Module Player.
(** [IKBPlayerStats].  [fantasyPoints] is [None] when the value is
    missing ([undefined], [null] or NaN: all falsy).  The sign of the
    difference of two doubles is the sign of their exact difference, so
    the comparator of the players view is computed on [Q]. *)
Record t : Type := mk {
  name : string;
  position : string;
  played : bool;
  started : Z;
  minutes : Z;
  seconds : Z;
  points : Z;
  rebounds : Z;
  assists : Z;
  steals : Z;
  blockedShots : Z;
  fieldGoalsMade : Z;
  fieldGoalsAttempted : Z;
  threePointersMade : Z;
  threePointersAttempted : Z;
  freeThrowsMade : Z;
  freeThrowsAttempted : Z;
  fantasyPoints : option Q
}.
End Player.

Module Team.
(** [IKBTeamStats]. *)
Record t : Type := mk {
  name : string;
  abbreviation : string;
  score : Z;
  fieldGoalsPercentage : Q;
  threePointersPercentage : Q;
  rebounds : Z;
  assists : Z;
  steals : Z;
  blockedShots : Z;
  turnovers : Z
}.
End Team.

Module Quarter.
Record t : Type := mk { number : Z; awayScore : Z; homeScore : Z }.
End Quarter.

Module Game.
(** The [game] object of [IKBGameData]. *)
Record t : Type := mk {
  season : Z;
  status : string;
  dateTime : string;
  awayTeam : string;
  homeTeam : string;
  awayTeamScore : Z;
  homeTeamScore : Z;
  stadium : string;
  quarters : list Quarter.t
}.
End Game.

Record IKBGameData : Type := mkGameData {
  game : Game.t;
  teams : list Team.t;
  players : list Player.t
}.

(** [IKBSearchResponse]: the parsed body of the upstream answer. *)
Record IKBSearchResponse : Type := mkSearchResponse {
  data : list IKBGameData;
  metadata_count : Z
}.

Inductive SearchType : Type := game_view | teams_view | players_view.

Record Filters : Type := mkFilters { filter_sport : string; filter_date : string }.

(** [IKBPluginConfig]; an optional key that is absent is [None]. *)
Record IKBPluginConfig : Type := mkConfig {
  apiKey : string;
  maxResults : option Z;
  searchType : option SearchType;
  filters : option Filters
}.

(** [{ ...DEFAULT_CONFIG, ...config }] with
    [DEFAULT_CONFIG = { maxResults: 5, searchType: "game" }]. *)
Definition withDefaults (config : IKBPluginConfig) : IKBPluginConfig :=
  {| apiKey := apiKey config;
     maxResults := match maxResults config with Some n => Some n | None => Some 5 end;
     searchType := match searchType config with Some v => Some v | None => Some game_view end;
     filters := filters config |}.

(** [IKBMemory]. *)
Record IKBMemoryContent : Type := mkMemoryContent {
  mem_text : string;
  mem_sport : string;
  mem_date : string;
  mem_data : list IKBGameData
}.

Record IKBMemory : Type := mkMemory {
  mem_content : IKBMemoryContent;
  roomId : string;
  userId : string
}.

(** The part of the incoming [Memory] the action reads: [message.content.text]. *)
Record Content : Type := mkContent { text : string }.
Record Memory : Type := mkMessage { content : Content }.

(** [SearchResult] of [common/types.ts], as the handler builds it. *)
Record SearchResultMetadata : Type := mkMetadata {
  meta_sport : string;
  meta_date : string;
  dataType : option SearchType
}.

Record SearchResult : Type := mkSearchResult {
  title : string;
  url : string;
  snippet : string;
  score : Z;
  source : string;
  metadata : SearchResultMetadata
}.

(** What the handler returns. *)
Record ActionResult : Type := mkResult { success : bool; response : string }.

(* ================================================================== *)
(** ** The outside world *)
(* ================================================================== *)

(** The answer of [fetch]: [response.ok], [response.statusText] and what
    [response.json()] gives. *)
Record Response : Type := mkResponse {
  ok : bool;
  statusText : string;
  json : JS.Error + IKBSearchResponse
}.

Record RequestInit : Type := mkRequest {
  method : string;
  headers : list (string * string)
}.

(** The memory manager of the host runtime. *)
Record IMemoryManager : Type := mkMemoryManager {
  createMemory : IKBMemory -> bool -> JS.Error + unit
}.

Record IAgentRuntime : Type := mkRuntime {
  getMemoryManager : JS.Error + IMemoryManager
}.

(** The globals of the JavaScript host: the clock read by [new Date()],
    [fetch] (a rejected promise is [inl]), and the locale-dependent
    [new Date(s).toLocaleDateString()]. *)
Record Host : Type := mkHost {
  now : Z;
  fetch : string -> RequestInit -> JS.Error + Response;
  toLocaleDateString : string -> string
}.

(** The helpers imported from [common/utils.ts], which is not part of this
    file: the plugin is verified against any implementation of them. *)
Class CommonUtils : Type := {
  (** [validateSearchQuery(text)]: the cleaned query, or a thrown
      [ValidationError]. *)
  validateSearchQuery : string -> JS.Error + string;
  (** [validateApiKey(config)], called by the constructor. *)
  validateApiKey : IKBPluginConfig -> JS.Error + unit;
  (** The text that [handleApiError] answers with for a thrown error. *)
  apiErrorResponse : JS.Error -> string;
  (** [formatSearchResults(results)]. *)
  formatSearchResults : list SearchResult -> string;
  (** The state of a limiter made by [createRateLimiter]. *)
  RateLimiter : Type;
  createRateLimiter : Z -> Z -> RateLimiter;
  (** [checkLimit()] at a reading of the clock: true when the call is
      allowed, and the next state of the limiter. *)
  checkLimit : Z -> RateLimiter -> bool * RateLimiter
}.

(** Modelled from the spec: [handleApiError] of [common/utils.ts], the error
    formatter, which maps any thrown error into the shape
    [{ success: false, response: string }]. *)
Definition handleApiError `{CommonUtils} (error : JS.Error) : ActionResult :=
  {| success := false; response := apiErrorResponse error |}.

(** The calls that leave the plugin, in the order they are made. *)
Inductive Event : Type :=
| HttpRequest (url : string) (init : RequestInit)
| GetMemoryManager
| CreateMemory (memory : IKBMemory) (embed : bool).

(* ================================================================== *)
(** ** Results and the handler monad *)
(* ================================================================== *)

Module Result.
Definition t (A : Type) : Type := (JS.Error + A)%type.

Definition bind {A B : Type} (c : t A) (k : A -> t B) : t B :=
  match c with
  | inl e => inl e
  | inr a => k a
  end.

(** [try { return body } catch { return fallback }]. *)
Definition tryCatch {A : Type} (body : t A) (fallback : A) : A :=
  match body with
  | inl _ => fallback
  | inr a => a
  end.

(** [Array.prototype.map] with a callback that can throw. *)
Fixpoint mapM {A B : Type} (f : A -> t B) (l : list A) : t (list B) :=
  match l with
  | [] => inr []
  | x :: l' =>
      bind (f x) (fun y => bind (mapM f l') (fun ys => inr (y :: ys)))
  end.
End Result.

Section Monad.
Context `{CommonUtils}.

(** The mutable state a call can touch: the plugin's rate limiter and the
    log of external calls. *)
Record World : Type := mkWorld { limiter : RateLimiter; trace : list Event }.

Definition M (A : Type) : Type := World -> (JS.Error + A) * World.

Definition ret {A : Type} (a : A) : M A := fun w => (inr a, w).

Definition throw {A : Type} (e : JS.Error) : M A := fun w => (inl e, w).

Definition bind {A B : Type} (c : M A) (k : A -> M B) : M B :=
  fun w =>
    match c w with
    | (inl e, w') => (inl e, w')
    | (inr a, w') => k a w'
    end.

Definition liftResult {A : Type} (r : JS.Error + A) : M A := fun w => (r, w).

Definition emit (ev : Event) : M unit :=
  fun w => (inr tt, {| limiter := limiter w; trace := (trace w ++ [ev])%list |}).

(** [try { body } catch (error) { return recover(error) }]. *)
Definition tryCatch {A : Type} (body : M A) (recover : JS.Error -> A)
  : World -> A * World :=
  fun w =>
    match body w with
    | (inl e, w') => (recover e, w')
    | (inr a, w') => (a, w')
    end.
End Monad.

Notation "x <- c ;; k" := (bind c (fun x => k))
  (at level 61, c at next level, right associativity).
Notation "c ;;; k" := (bind c (fun _ => k))
  (at level 61, right associativity).

(* ================================================================== *)
(** ** The plugin: [class IKBSearchPlugin] *)
(* ================================================================== *)

Section Plugin.
Context `{CommonUtils}.
Variable host : Host.

(** The fields of an instance; the rate limiter lives in the [World]. *)
Record IKBSearchPlugin : Type := mkPlugin { config : IKBPluginConfig }.


Definition formatGameSummary (d : IKBGameData) : string :=
  let g := game d in
  let quarters :=
    JS.join ", "
      (map (fun q =>
              "Q" ++ JS.NumberToString (Quarter.number q) ++ ": "
              ++ JS.NumberToString (Quarter.awayScore q) ++ "-"
              ++ JS.NumberToString (Quarter.homeScore q))
           (Game.quarters g)) in
  Game.awayTeam g ++ " " ++ JS.NumberToString (Game.awayTeamScore g) ++ " @ "
    ++ Game.homeTeam g ++ " " ++ JS.NumberToString (Game.homeTeamScore g) ++ JS.LF
  ++ "Date: " ++ toLocaleDateString host (Game.dateTime g) ++ JS.LF
  ++ "Quarter Scores: " ++ quarters ++ JS.LF
  ++ "Status: " ++ Game.status g ++ JS.LF
  ++ "Stadium: " ++ Game.stadium g.

Definition formatTeamStats (d : IKBGameData) : Result.t string :=
  Result.bind
    (Result.mapM
       (fun team =>
          Result.bind (JS.toFixed 1 (Team.fieldGoalsPercentage team)) (fun fg =>
          Result.bind (JS.toFixed 1 (Team.threePointersPercentage team)) (fun tp =>
          inr (Team.name team ++ " (" ++ Team.abbreviation team ++ ")" ++ JS.LF
               ++ "Score: " ++ JS.NumberToString (Team.score team) ++ JS.LF
               ++ "FG%: " ++ fg ++ "%, 3P%: " ++ tp ++ "%" ++ JS.LF
               ++ "Rebounds: " ++ JS.NumberToString (Team.rebounds team)
               ++ ", Assists: " ++ JS.NumberToString (Team.assists team) ++ JS.LF
               ++ "Steals: " ++ JS.NumberToString (Team.steals team)
               ++ ", Blocks: " ++ JS.NumberToString (Team.blockedShots team)))))
       (teams d))
    (fun blocks => inr (JS.join (JS.LF ++ JS.LF) blocks)).

Definition formatPlayerStats (d : IKBGameData) : string :=
  JS.join (JS.LF ++ JS.LF)
    (map
       (fun player =>
          let minutes :=
            JS.NumberToString (Player.minutes player) ++ ":"
            ++ JS.padStart 2 "0" (JS.NumberToString (Player.seconds player)) in
          let shooting :=
            JS.NumberToString (Player.fieldGoalsMade player) ++ "/"
            ++ JS.NumberToString (Player.fieldGoalsAttempted player) ++ " FG, "
            ++ JS.NumberToString (Player.threePointersMade player) ++ "/"
            ++ JS.NumberToString (Player.threePointersAttempted player) ++ " 3P" in
          Player.name player ++ " (" ++ Player.position player ++ ") - "
            ++ minutes ++ " min" ++ JS.LF
          ++ JS.NumberToString (Player.points player) ++ " PTS, "
            ++ JS.NumberToString (Player.rebounds player) ++ " REB, "
            ++ JS.NumberToString (Player.assists player) ++ " AST" ++ JS.LF
          ++ shooting)
       (JS.slice 0 10
          (JS.sort
             (fun a b =>
                Qminus (JS.orZero (Player.fantasyPoints b))
                       (JS.orZero (Player.fantasyPoints a)))
             (filter (fun p => Player.played p) (players d))))).

(** [date.toISOString().split('T')[0]]. *)
Definition formatDate (date : Z) : string :=
  nth 0 (JS.split "T" (JSDate.toISOString date)) "undefined".

(** The regular expression [/\d{4}-\d{2}-\d{2}/]. *)
Definition datePattern : list JS.Atom :=
  [JS.Digit; JS.Digit; JS.Digit; JS.Digit; JS.Lit "-";
   JS.Digit; JS.Digit; JS.Lit "-"; JS.Digit; JS.Digit].

Definition extractDateFromQuery (query : string) : string :=
  match JS.matchFirst datePattern query with
  | Some dateMatch => dateMatch
  | None => formatDate (now host)
  end.

Definition extractSportFromQuery (query : string) : string :=
  let lowerQuery := JS.toLowerCase query in
  if JS.includes lowerQuery "nfl" || JS.includes lowerQuery "football" then "nfl"
  else if JS.includes lowerQuery "nba" || JS.includes lowerQuery "basketball" then "nba"
  else "nba".

Definition memorizeData (runtime : IAgentRuntime) (sport date : string)
    (games : list IKBGameData) : M unit :=
  let memory :=
    {| mem_content :=
         {| mem_text := sport ++ " game data for " ++ date;
            mem_sport := sport;
            mem_date := date;
            mem_data := games |};
       roomId := "default";
       userId := "system" |} in
  memoryManager <- (emit GetMemoryManager ;;; liftResult (getMemoryManager runtime)) ;;
  emit (CreateMemory memory true) ;;;
  liftResult (createMemory memoryManager memory true).

Definition fetchFromAPI (self : IKBSearchPlugin) (sport date : string)
  : M IKBSearchResponse :=
  let target := "https://api.ikb.gg/ai/" ++ sport ++ "/" ++ date in
  let init :=
    {| method := "GET";
       headers := [("Content-Type", "application/json");
                   ("Authorization", "Bearer " ++ apiKey (config self))] |} in
  response <- (emit (HttpRequest target init) ;;; liftResult (fetch host target init)) ;;
  if negb (ok response)
  then throw (JS.mkError "Error" ("IKB API error: " ++ statusText response))
  else liftResult (json response).

(** [this.rateLimiter.checkLimit()]. *)
Definition rateLimiter_checkLimit : M bool :=
  fun w =>
    let (allowed, l') := checkLimit (now host) (limiter w) in
    (inr allowed, {| limiter := l'; trace := trace w |}).

(** The [validate] predicate of the [IKB_SEARCH] action. *)
Definition validate (message : Memory) : bool :=
  Result.tryCatch
    (Result.bind (validateSearchQuery (text (content message)))
                 (fun _ => inr true))
    false.

(** The [try] block of the handler. *)
Definition handlerBody (self : IKBSearchPlugin) (runtime : IAgentRuntime)
    (message : Memory) : M ActionResult :=
  allowed <- rateLimiter_checkLimit ;;
  if negb allowed
  then ret {| success := false;
              response := "Rate limit exceeded. Please try again later." |}
  else
    query <- liftResult (validateSearchQuery (text (content message))) ;;
    let date := extractDateFromQuery query in
    let sport := extractSportFromQuery query in
    answer <- fetchFromAPI self sport date ;;
    memorizeData runtime sport date (data answer) ;;;
    formattedContent <-
      liftResult
        match data answer with
        | [] => inr ""
        | gameData :: _ =>
            match searchType (config self) with
            | Some game_view => inr (formatGameSummary gameData)
            | Some teams_view => formatTeamStats gameData
            | Some players_view => inr (formatPlayerStats gameData)
            | None => inr (formatGameSummary gameData)
            end
        end ;;
    let results :=
      [ {| title := JS.toUpperCase sport ++ " Stats for " ++ date;
           url := "https://api.ikb.gg/ai/" ++ sport ++ "/" ++ date;
           snippet := formattedContent;
           score := 1;
           source := "ikb";
           metadata := {| meta_sport := sport;
                          meta_date := date;
                          dataType := searchType (config self) |} |} ] in
    ret {| success := true; response := formatSearchResults results |}.

(** The [handler] of the [IKB_SEARCH] action. *)
Definition handler (self : IKBSearchPlugin) (runtime : IAgentRuntime)
    (message : Memory) : World -> ActionResult * World :=
  tryCatch (handlerBody self runtime message) handleApiError.

End Plugin.

(* ================================================================== *)
(** ** A concrete host, for running the plugin on examples *)
(* ================================================================== *)

Module Sample.

(** A fixed-window limiter: at most [limit] calls per window of
    [windowMs] milliseconds. *)
Record Window : Type := mkWindow {
  limit : Z;
  windowMs : Z;
  count : Z;
  windowStart : Z
}.

Definition windowCheck (t : Z) (l : Window) : bool * Window :=
  if windowMs l <=? t - windowStart l
  then (true, {| limit := limit l; windowMs := windowMs l; count := 1; windowStart := t |})
  else if count l <? limit l
  then (true, {| limit := limit l; windowMs := windowMs l;
                 count := count l + 1; windowStart := windowStart l |})
  else (false, l).

(** One implementation of the helpers of [common/utils.ts]: validation
    fails on the empty query, the error formatter answers with the message
    of the error, results are printed as title and snippet. *)
#[global] Instance utils : CommonUtils := {|
  validateSearchQuery := fun q =>
    if (q =? "")%string
    then inl (JS.mkError "ValidationError" "Search query is required")
    else inr q;
  validateApiKey := fun cfg =>
    if (apiKey cfg =? "")%string
    then inl (JS.mkError "ValidationError" "API key is required")
    else inr tt;
  apiErrorResponse := JS.errorMessage;
  formatSearchResults := fun results =>
    JS.join JS.LF (map (fun r => title r ++ JS.LF ++ snippet r) results);
  RateLimiter := Window;
  createRateLimiter := fun n w =>
    {| limit := n; windowMs := w; count := 0; windowStart := 0 |};
  checkLimit := windowCheck
|}.

Definition lakers : Team.t :=
  {| Team.name := "Lakers"; Team.abbreviation := "LAL"; Team.score := 110;
     Team.fieldGoalsPercentage := 4567 # 100;
     Team.threePointersPercentage := 35 # 1;
     Team.rebounds := 44; Team.assists := 25; Team.steals := 7;
     Team.blockedShots := 5; Team.turnovers := 12 |}.

Definition celtics : Team.t :=
  {| Team.name := "Celtics"; Team.abbreviation := "BOS"; Team.score := 105;
     Team.fieldGoalsPercentage := 4125 # 100;
     Team.threePointersPercentage := 3333 # 100;
     Team.rebounds := 40; Team.assists := 22; Team.steals := 9;
     Team.blockedShots := 3; Team.turnovers := 14 |}.

Definition player (n : string) (did_play : bool) (secs : Z) (fp : option Q)
  : Player.t :=
  {| Player.name := n; Player.position := "G"; Player.played := did_play;
     Player.started := 1; Player.minutes := 30; Player.seconds := secs;
     Player.points := 20; Player.rebounds := 5; Player.assists := 7;
     Player.steals := 1; Player.blockedShots := 0;
     Player.fieldGoalsMade := 8; Player.fieldGoalsAttempted := 15;
     Player.threePointersMade := 2; Player.threePointersAttempted := 6;
     Player.freeThrowsMade := 2; Player.freeThrowsAttempted := 2;
     Player.fantasyPoints := fp |}.

Definition theGame : Game.t :=
  {| Game.season := 2024; Game.status := "Final";
     Game.dateTime := "2024-12-15T19:30:00";
     Game.awayTeam := "BOS"; Game.homeTeam := "LAL";
     Game.awayTeamScore := 105; Game.homeTeamScore := 110;
     Game.stadium := "Crypto.com Arena";
     Game.quarters := [ {| Quarter.number := 1; Quarter.awayScore := 20; Quarter.homeScore := 18 |};
                        {| Quarter.number := 2; Quarter.awayScore := 15; Quarter.homeScore := 20 |} ] |}.

Definition record : IKBGameData :=
  {| game := theGame;
     teams := [celtics; lakers];
     players := [player "Ann" true 5 None; player "Bob" true 42 (Some (30 # 1));
                 player "Cy" false 0 (Some (50 # 1))] |}.

Definition emptyRecord : IKBGameData :=
  {| game := {| Game.season := 2024; Game.status := "Scheduled";
                Game.dateTime := "2024-12-15T19:30:00";
                Game.awayTeam := "BOS"; Game.homeTeam := "LAL";
                Game.awayTeamScore := 0; Game.homeTeamScore := 0;
                Game.stadium := "Crypto.com Arena"; Game.quarters := [] |};
     teams := [];
     players := [] |}.

(** A memory store that accepts every record, and one that refuses. *)
Definition goodRuntime : IAgentRuntime :=
  {| getMemoryManager := inr {| createMemory := fun _ _ => inr tt |} |}.

Definition failingRuntime : IAgentRuntime :=
  {| getMemoryManager :=
       inr {| createMemory := fun _ _ =>
                inl (JS.mkError "Error" "memory store unavailable") |} |}.

(** A host whose clock reads 2024-12-15T13:10:45.123Z and whose network
    answers every request with [answer]. *)
Definition hostWith (answer : JS.Error + Response) : Host :=
  {| now := 1734268245123;
     fetch := fun _ _ => answer;
     toLocaleDateString := fun s => substring 0 10 s |}.

Definition okResponse (games : list IKBGameData) : JS.Error + Response :=
  inr {| ok := true; statusText := "OK";
         json := inr {| data := games; metadata_count := Z.of_nat (List.length games) |} |}.

Definition plugin (view : option SearchType) (f : option Filters)
  : IKBSearchPlugin :=
  {| config := withDefaults {| apiKey := "secret"; maxResults := None;
                               searchType := view; filters := f |} |}.

Definition freshWorld : World :=
  {| limiter := createRateLimiter 60 60000; trace := [] |}.

(** A limiter whose window is full at the host's clock reading. *)
Definition exhaustedWorld : World :=
  {| limiter := {| limit := 60; windowMs := 60000; count := 60;
                   windowStart := 1734268245000 |};
     trace := [] |}.

Definition ask (q : string) : Memory := {| content := {| text := q |} |}.

(** A host whose network answers with no game at all, and one with the
    sample record. *)
Definition noGamesHost : Host := hostWith (okResponse []).
Definition oneGameHost : Host := hostWith (okResponse [record]).

(** A plugin configured with filters for football on 2024-01-01. *)
Definition footballFilters : Filters :=
  {| filter_sport := "nfl"; filter_date := "2024-01-01" |}.

End Sample.

(* ================================================================== *)
(** ** Vocabulary of the specification *)
(* ================================================================== *)

(** Every character of the string passes the test. *)
Fixpoint allChars (p : ascii -> bool) (s : string) : bool :=
  match s with
  | EmptyString => true
  | String c s' => p c && allChars p s'
  end.

(** The text is exactly [k] decimal digits. *)
Definition isDigits (k : nat) (s : string) : bool :=
  (String.length s =? k)%nat && allChars JS.isDigit s.

(** The number that a text of decimal digits denotes, read after [v]. *)
Fixpoint decimalValueFrom (v : Z) (s : string) : Z :=
  match s with
  | EmptyString => v
  | String c s' => decimalValueFrom (10 * v + (JS.charCode c - 48)) s'
  end.

(** The text holds no line feed. *)
Definition oneLine (s : string) : bool :=
  allChars (fun c => negb (Ascii.eqb c JS.LFchar)) s.

Definition digitChars : list ascii :=
  ["0"; "1"; "2"; "3"; "4"; "5"; "6"; "7"; "8"; "9"]%char.

(** A text of the shape YYYY-MM-DD: four digits, two digits, two digits,
    with hyphens between; no calendar check. *)
Definition IsDateText (m : string) : Prop :=
  exists y1 y2 y3 y4 m1 m2 d1 d2 : ascii,
    m = String y1 (String y2 (String y3 (String y4 (String "-"
          (String m1 (String m2 (String "-" (String d1 (String d2 "")))))))))
    /\ Forall (fun c => In c digitChars) [y1; y2; y3; y4; m1; m2; d1; d2].

(** [m] is the substring of [q] that starts at index [i]. *)
Definition OccursAt (m q : string) (i : nat) : Prop :=
  exists pre post, q = pre ++ m ++ post /\ String.length pre = i.

(** The pattern matches the whole of [m]. *)
Fixpoint matchesAll (re : list JS.Atom) (m : string) : bool :=
  match re, m with
  | [], EmptyString => true
  | a :: re', String c m' => JS.atomMatches a c && matchesAll re' m'
  | _, _ => false
  end.

(** [kw] occurs in [q] up to the case of letters. *)
Definition ContainsIgnoringCase (q kw : string) : Prop :=
  exists pre mid post,
    q = pre ++ mid ++ post /\ JS.toLowerCase mid = JS.toLowerCase kw.

(** The fantasy points a player is ranked by: a missing value counts as 0. *)
Definition rankingPoints (p : Player.t) : Q :=
  match Player.fantasyPoints p with
  | Some q => q
  | None => 0%Q
  end.

(** Seconds below ten get a leading zero. *)
Definition twoDigitSeconds (s : Z) : string :=
  if (0 <=? s) && (s <? 10) then "0" ++ JS.NumberToString s
  else JS.NumberToString s.

(** The block of the players view for one player: name, position and
    minutes:seconds; points, rebounds, assists; field goals and
    three-pointers as made/attempted. *)
Definition playerBlock (p : Player.t) : string :=
  JS.join JS.LF
    [ Player.name p ++ " (" ++ Player.position p ++ ") - "
        ++ JS.NumberToString (Player.minutes p) ++ ":"
        ++ twoDigitSeconds (Player.seconds p) ++ " min";
      JS.NumberToString (Player.points p) ++ " PTS, "
        ++ JS.NumberToString (Player.rebounds p) ++ " REB, "
        ++ JS.NumberToString (Player.assists p) ++ " AST";
      JS.NumberToString (Player.fieldGoalsMade p) ++ "/"
        ++ JS.NumberToString (Player.fieldGoalsAttempted p) ++ " FG, "
        ++ JS.NumberToString (Player.threePointersMade p) ++ "/"
        ++ JS.NumberToString (Player.threePointersAttempted p) ++ " 3P" ].

(** One period of the quarter line. *)
Definition quarterText (q : Quarter.t) : string :=
  "Q" ++ JS.NumberToString (Quarter.number q) ++ ": "
  ++ JS.NumberToString (Quarter.awayScore q) ++ "-"
  ++ JS.NumberToString (Quarter.homeScore q).

(** The five lines of the game view. *)
Definition gameLines (host : Host) (g : Game.t) : list string :=
  [ Game.awayTeam g ++ " " ++ JS.NumberToString (Game.awayTeamScore g) ++ " @ "
      ++ Game.homeTeam g ++ " " ++ JS.NumberToString (Game.homeTeamScore g);
    "Date: " ++ toLocaleDateString host (Game.dateTime g);
    "Quarter Scores: " ++ JS.join ", " (map quarterText (Game.quarters g));
    "Status: " ++ Game.status g;
    "Stadium: " ++ Game.stadium g ].

(** The configuration with other [filters]. *)
Definition withFilters (cfg : IKBPluginConfig) (f : option Filters)
  : IKBPluginConfig :=
  {| apiKey := apiKey cfg;
     maxResults := maxResults cfg;
     searchType := searchType cfg;
     filters := f |}.

(** The addresses of the HTTP requests in a trace, and its calls to the
    memory store. *)
Definition requestedUrls (tr : list Event) : list string :=
  flat_map (fun ev => match ev with
                      | HttpRequest u _ => [u]
                      | _ => []
                      end) tr.

Definition memoryCalls (tr : list Event) : list Event :=
  filter (fun ev => match ev with
                    | HttpRequest _ _ => false
                    | _ => true
                    end) tr.

(** The request of the upstream API for a sport and a date. *)
Definition apiUrl (sport date : string) : string :=
  "https://api.ikb.gg/ai/" ++ sport ++ "/" ++ date.

Definition apiRequest (key : string) : RequestInit :=
  {| method := "GET";
     headers := [("Content-Type", "application/json");
                 ("Authorization", "Bearer " ++ key)] |}.

(** The record handed to the memory store. *)
Definition memoryRecord (sport date : string) (games : list IKBGameData)
  : IKBMemory :=
  {| mem_content := {| mem_text := sport ++ " game data for " ++ date;
                       mem_sport := sport;
                       mem_date := date;
                       mem_data := games |};
     roomId := "default";
     userId := "system" |}.

(** The answer to a call the rate limiter denies. *)
Definition rateLimitExceeded : ActionResult :=
  {| success := false;
     response := "Rate limit exceeded. Please try again later." |}.

(** The one search result of a successful call. *)
Definition searchResultFor (self : IKBSearchPlugin) (sport date text : string)
  : SearchResult :=
  {| title := JS.toUpperCase sport ++ " Stats for " ++ date;
     url := apiUrl sport date;
     snippet := text;
     score := 1;
     source := "ikb";
     metadata := {| meta_sport := sport;
                    meta_date := date;
                    dataType := searchType (config self) |} |}.

(** The text of the configured view of the first game, if there is one. *)
Definition viewOfFirstGame (host : Host) (self : IKBSearchPlugin)
    (games : list IKBGameData) : Result.t string :=
  match games with
  | [] => inr ""
  | gameData :: _ =>
      match searchType (config self) with
      | Some teams_view => formatTeamStats gameData
      | Some players_view => inr (formatPlayerStats gameData)
      | _ => inr (formatGameSummary host gameData)
      end
  end.

(** The world after the limiter moved to [l] and the calls [evs] were made. *)
Definition logged `{CommonUtils} (w : World) (l : RateLimiter)
    (evs : list Event) : World :=
  {| limiter := l; trace := (trace w ++ evs)%list |}.

(** The comparator [(a, b) => key(b) - key(a)]: largest key first. *)
Definition descendingBy {A : Type} (key : A -> Q) (a b : A) : Q :=
  Qminus (key b) (key a).





(** The days of a year that precede a month (0 for January), [leap] being 1
    in a leap year and 0 otherwise. *)
Definition daysBeforeMonth (month leap : Z) : Z :=
  match month with
  | 0 => 0
  | 1 => 31
  | 2 => 59 + leap
  | 3 => 90 + leap
  | 4 => 120 + leap
  | 5 => 151 + leap
  | 6 => 181 + leap
  | 7 => 212 + leap
  | 8 => 243 + leap
  | 9 => 273 + leap
  | 10 => 304 + leap
  | _ => 334 + leap
  end.


(* ================================================================== *)
(** * Properties *)
(* ================================================================== *)

Example toISOString_epoch :
  JSDate.toISOString 0 = "1970-01-01T00:00:00.000Z".
Proof. reflexivity. Qed.

Example toISOString_2024 :
  JSDate.toISOString 1734268245123 = "2024-12-15T13:10:45.123Z".
Proof. vm_compute. reflexivity. Qed.

Example toISOString_leap :
  JSDate.toISOString 1709164800000 = "2024-02-29T00:00:00.000Z".
Proof. vm_compute. reflexivity. Qed.

Example toISOString_before_epoch :
  JSDate.toISOString (-1) = "1969-12-31T23:59:59.999Z".
Proof. vm_compute. reflexivity. Qed.

Example toFixed_examples :
  JS.toFixed 1 (4567 # 100) = inr "45.7"
  /\ JS.toFixed 1 (5 # 100) = inr "0.1"
  /\ JS.toFixed 1 (-(4 # 100)) = inr "-0.0"
  /\ JS.toFixed 1 (100 # 1) = inr "100.0"
  /\ JS.toFixed 0 (7 # 2) = inr "4".
Proof. vm_compute. repeat split. Qed.

(* ================================================================== *)
(** ** Strings *)
(* ================================================================== *)

Section StringFacts.

Lemma append_assoc (a b c : string) : (a ++ b) ++ c = a ++ (b ++ c).
Proof. induction a as [|x a IH]; simpl; [reflexivity | now rewrite IH]. Qed.

Lemma length_append (a b : string) :
  String.length (a ++ b) = (String.length a + String.length b)%nat.
Proof. induction a as [|x a IH]; simpl; [reflexivity | now rewrite IH]. Qed.

(** [prefix k s] holds exactly when [s] starts with [k]. *)
Lemma prefix_iff (k s : string) :
  String.prefix k s = true <-> exists post, s = k ++ post.
Proof.
  revert s. induction k as [|x k IH]; intros s; simpl.
  - split; [intros _; now exists s | now destruct s].
  - destruct s as [|y s].
    + split; [discriminate | intros [post E]; discriminate].
    + simpl. destruct (ascii_dec x y) as [->|N].
      * rewrite IH. split; intros [post E]; exists post.
        -- now rewrite E.
        -- now injection E.
      * split; [discriminate | intros [post E]; injection E; congruence].
Qed.

Lemma includes_unfold (s k : string) :
  JS.includes s k =
  if String.prefix k s then true
  else match s with
       | EmptyString => false
       | String _ s' => JS.includes s' k
       end.
Proof. destruct s; reflexivity. Qed.

(** [includes s k] holds exactly when [k] occurs somewhere in [s]. *)
Lemma includes_iff (s k : string) :
  JS.includes s k = true <-> exists pre post, s = pre ++ k ++ post.
Proof.
  induction s as [|c s IH]; rewrite includes_unfold.
  - destruct (String.prefix k "") eqn:P.
    + split; [intros _ | reflexivity].
      apply prefix_iff in P. destruct P as [post E]. now exists "", post.
    + split; [discriminate|]. intros (pre & post & E).
      destruct pre; simpl in E.
      * assert (String.prefix k "" = true) by (apply prefix_iff; now exists post).
        congruence.
      * discriminate.
  - destruct (String.prefix k (String c s)) eqn:P.
    + split; [intros _ | reflexivity].
      apply prefix_iff in P. destruct P as [post E]. now exists "", post.
    + rewrite IH. split.
      * intros (pre & post & E). exists (String c pre), post. simpl. now rewrite E.
      * intros (pre & post & E). destruct pre as [|x pre]; simpl in E.
        -- assert (String.prefix k (String c s) = true)
             by (apply prefix_iff; now exists post).
           congruence.
        -- injection E as _ E. now exists pre, post.
Qed.

Lemma mapChars_append (f : ascii -> ascii) (a b : string) :
  JS.mapChars f (a ++ b) = JS.mapChars f a ++ JS.mapChars f b.
Proof. induction a as [|x a IH]; simpl; [reflexivity | now rewrite IH]. Qed.

(** A split of the mapped string comes from a split of the string. *)
Lemma mapChars_append_inv (f : ascii -> ascii) (s a b : string) :
  JS.mapChars f s = a ++ b ->
  exists a' b', s = a' ++ b' /\ JS.mapChars f a' = a /\ JS.mapChars f b' = b.
Proof.
  revert s. induction a as [|x a IH]; intros s E; simpl in E.
  - now exists "", s.
  - destruct s as [|y s]; simpl in E; [discriminate|].
    injection E as Ex E. destruct (IH _ E) as (a' & b' & -> & Ea & Eb).
    exists (String y a'), b'. simpl. now rewrite Ex, Ea, Eb.
Qed.

Lemma allChars_append (p : ascii -> bool) (a b : string) :
  allChars p (a ++ b) = allChars p a && allChars p b.
Proof.
  induction a as [|x a IH]; simpl; [reflexivity|].
  now rewrite IH, andb_assoc.
Qed.

Lemma allChars_weaken (p q : ascii -> bool) (s : string) :
  (forall c, p c = true -> q c = true) -> allChars p s = true -> allChars q s = true.
Proof.
  intros W. induction s as [|c s IH]; simpl; [reflexivity|].
  rewrite !andb_true_iff. intros [Hc Hs]. split; auto.
Qed.

Lemma allChars_repeatChar (p : ascii -> bool) (c : ascii) (n : nat) :
  p c = true -> allChars p (JS.repeatChar c n) = true.
Proof. intros Hc. induction n; simpl; [reflexivity | now rewrite Hc]. Qed.

(** Splitting at a separator that the first piece does not contain. *)
Lemma split_no_sep (sep : ascii) (a : string) :
  allChars (fun c => negb (Ascii.eqb c sep)) a = true -> JS.split sep a = [a].
Proof.
  induction a as [|c a IH]; simpl; [reflexivity|].
  rewrite andb_true_iff, negb_true_iff. intros [-> Ha].
  now rewrite (IH Ha).
Qed.

Lemma split_append (sep : ascii) (a b : string) :
  allChars (fun c => negb (Ascii.eqb c sep)) a = true ->
  JS.split sep (a ++ String sep b) = a :: JS.split sep b.
Proof.
  induction a as [|c a IH]; simpl.
  - intros _. now rewrite Ascii.eqb_refl.
  - rewrite andb_true_iff, negb_true_iff. intros [-> Ha].
    now rewrite (IH Ha).
Qed.

End StringFacts.

Section PatternFacts.

Lemma isDigit_iff (c : ascii) : JS.isDigit c = true <-> In c digitChars.
Proof.
  split.
  - destruct c as [[] [] [] [] [] [] [] []]; vm_compute; intros E;
      try discriminate; tauto.
  - intros I. repeat (destruct I as [<- | I]; [reflexivity|]). destruct I.
Qed.

Lemma matchHere_iff (re : list JS.Atom) (s m : string) :
  JS.matchHere re s = Some m <->
  matchesAll re m = true /\ exists post, s = m ++ post.
Proof.
  revert s m. induction re as [|a re IH]; intros s m; simpl.
  - split.
    + intros [= <-]. split; [reflexivity | now exists s].
    + intros [Hm _]. destruct m; [reflexivity | discriminate].
  - destruct s as [|c s].
    + split; [discriminate|]. intros [Hm [post E]].
      destruct m; [discriminate | discriminate].
    + destruct (JS.atomMatches a c) eqn:A.
      * destruct (JS.matchHere re s) as [m0|] eqn:R; simpl.
        -- apply IH in R. destruct R as [R [post ->]]. split.
           ++ intros [= <-]. simpl. rewrite A, R. split; [reflexivity | now exists post].
           ++ intros [Hm [post' E]]. destruct m as [|x m]; [discriminate|].
              simpl in E. injection E as <- E.
              apply andb_true_iff in Hm. destruct Hm as [_ Hm].
              assert (JS.matchHere re (m0 ++ post) = Some m) as R'
                by (apply IH; split; [assumption | now exists post']).
              assert (JS.matchHere re (m0 ++ post) = Some m0) as R''
                by (apply IH; split; [assumption | now exists post]).
              congruence.
        -- split; [discriminate|]. intros [Hm [post' E]].
           destruct m as [|x m]; [discriminate|].
           simpl in E. injection E as <- E.
           apply andb_true_iff in Hm. destruct Hm as [_ Hm].
           assert (JS.matchHere re s = Some m) as R'
             by (apply IH; split; [assumption | now exists post']).
           congruence.
      * split; [discriminate|]. intros [Hm [post' E]].
        destruct m as [|x m]; [discriminate|].
        simpl in E. injection E as <- E.
        apply andb_true_iff in Hm. destruct Hm as [Hm _]. congruence.
Qed.

Lemma matchFirst_unfold (re : list JS.Atom) (s : string) :
  JS.matchFirst re s =
  match JS.matchHere re s with
  | Some m => Some m
  | None => match s with
            | EmptyString => None
            | String _ s' => JS.matchFirst re s'
            end
  end.
Proof. destruct s; reflexivity. Qed.

Lemma OccursAt_zero (m q : string) :
  OccursAt m q 0 <-> exists post, q = m ++ post.
Proof.
  split.
  - intros (pre & post & E & L). destruct pre; [|discriminate]. now exists post.
  - intros [post E]. now exists "", post.
Qed.

Lemma OccursAt_succ (m : string) (c : ascii) (q : string) (j : nat) :
  OccursAt m (String c q) (S j) <-> OccursAt m q j.
Proof.
  split.
  - intros (pre & post & E & L). destruct pre as [|x pre]; [discriminate|].
    simpl in E, L. injection E as _ E. injection L as L. now exists pre, post.
  - intros (pre & post & E & L). exists (String c pre), post. simpl.
    now rewrite E, L.
Qed.

Lemma OccursAt_empty (m : string) (j : nat) : OccursAt m "" j -> j = 0%nat.
Proof. intros (pre & post & E & L). destruct pre; [now symmetry | discriminate]. Qed.

(** A match found by [matchFirst] is the leftmost occurrence of a text the
    pattern matches. *)
Lemma matchFirst_Some (re : list JS.Atom) (s m : string) :
  JS.matchFirst re s = Some m ->
  exists i, OccursAt m s i /\ matchesAll re m = true
            /\ forall j m', OccursAt m' s j -> matchesAll re m' = true -> (i <= j)%nat.
Proof.
  revert m. induction s as [|c s IH]; intros m; rewrite matchFirst_unfold;
    destruct (JS.matchHere re _) as [m0|] eqn:R.
  - intros [= <-]. apply matchHere_iff in R. destruct R as [R P].
    exists 0%nat. split; [now apply OccursAt_zero|]. split; [assumption|]. intros; lia.
  - discriminate.
  - intros [= <-]. apply matchHere_iff in R. destruct R as [R P].
    exists 0%nat. split; [now apply OccursAt_zero|]. split; [assumption|]. intros; lia.
  - intros F. destruct (IH _ F) as (i & O & Hm & Least).
    exists (S i). split; [now apply OccursAt_succ|]. split; [assumption|].
    intros [|j] m' O' Hm'.
    + apply OccursAt_zero in O'.
      assert (JS.matchHere re (String c s) = Some m') by (now apply matchHere_iff).
      congruence.
    + apply OccursAt_succ in O'. specialize (Least _ _ O' Hm'). lia.
Qed.

Lemma matchFirst_None (re : list JS.Atom) (s : string) :
  JS.matchFirst re s = None ->
  forall j m', OccursAt m' s j -> matchesAll re m' = false.
Proof.
  induction s as [|c s IH]; rewrite matchFirst_unfold;
    destruct (JS.matchHere re _) as [m0|] eqn:R; try discriminate.
  - intros _ j m' O. pose proof (OccursAt_empty _ _ O) as ->.
    apply OccursAt_zero in O. destruct (matchesAll re m') eqn:Hm; [|reflexivity].
    assert (JS.matchHere re "" = Some m') by (now apply matchHere_iff). congruence.
  - intros F [|j] m' O.
    + apply OccursAt_zero in O. destruct (matchesAll re m') eqn:Hm; [|reflexivity].
      assert (JS.matchHere re (String c s) = Some m') by (now apply matchHere_iff).
      congruence.
    + apply OccursAt_succ in O. now apply (IH F j).
Qed.

Lemma matchesAll_datePattern (m : string) :
  matchesAll datePattern m = true <-> IsDateText m.
Proof.
  split.
  - intros Hm. unfold datePattern in Hm.
    do 10 (destruct m as [|? m]; [discriminate Hm|];
           cbn [matchesAll JS.atomMatches] in Hm; apply andb_true_iff in Hm;
           let D := fresh "D" in destruct Hm as [D Hm]).
    destruct m; [|discriminate Hm].
    apply Ascii.eqb_eq in D3, D6. subst.
    do 8 eexists. split; [reflexivity|].
    repeat (apply Forall_cons; [now apply isDigit_iff|]). apply Forall_nil.
  - intros (y1 & y2 & y3 & y4 & m1 & m2 & d1 & d2 & -> & F).
    repeat match goal with
           | F : Forall _ (_ :: _) |- _ => inversion F; subst; clear F
           end.
    repeat match goal with
           | I : In _ digitChars |- _ => apply isDigit_iff in I
           end.
    cbn [matchesAll datePattern JS.atomMatches].
    repeat match goal with
           | I : JS.isDigit _ = true |- _ => rewrite I; clear I
           end.
    reflexivity.
Qed.

End PatternFacts.

Section DateFacts.
Import JSDate.

Lemma digit_isDigit (n : Z) : JS.isDigit (JS.fromCharCode (48 + n mod 10)) = true.
Proof.
  pose proof (Z.mod_pos_bound n 10 ltac:(lia)) as B.
  assert (n mod 10 = 0 \/ n mod 10 = 1 \/ n mod 10 = 2 \/ n mod 10 = 3
          \/ n mod 10 = 4 \/ n mod 10 = 5 \/ n mod 10 = 6 \/ n mod 10 = 7
          \/ n mod 10 = 8 \/ n mod 10 = 9) as C by lia.
  repeat (destruct C as [-> | C]; [reflexivity|]). now rewrite C.
Qed.

Lemma digitsFrom_allDigits (fuel : nat) (n : Z) (acc : string) :
  allChars JS.isDigit acc = true ->
  allChars JS.isDigit (JS.digitsFrom fuel n acc) = true.
Proof.
  revert n acc. induction fuel as [|fuel IH]; intros n acc Hacc;
    cbn [JS.digitsFrom].
  - cbn [allChars]. now rewrite digit_isDigit.
  - destruct (n <? 10).
    + cbn [allChars]. now rewrite digit_isDigit.
    + apply IH. cbn [allChars]. now rewrite digit_isDigit.
Qed.

Lemma digits_allDigits (n : Z) : allChars JS.isDigit (JS.digits n) = true.
Proof. now apply digitsFrom_allDigits. Qed.

Lemma pad_allDigits (w : nat) (n : Z) : allChars JS.isDigit (pad w n) = true.
Proof.
  unfold pad, JS.padStart. rewrite allChars_append, digits_allDigits.
  now rewrite allChars_repeatChar.
Qed.

Lemma repeatChar_length (c : ascii) (n : nat) :
  String.length (JS.repeatChar c n) = n.
Proof. induction n; simpl; [reflexivity | now rewrite IHn]. Qed.

Lemma padStart_length (w : nat) (c : ascii) (s : string) :
  String.length (JS.padStart w c s) = Nat.max w (String.length s).
Proof. unfold JS.padStart. rewrite length_append, repeatChar_length. lia. Qed.

(** A number below [10^k] has at most [k] digits, and at least one. *)
Lemma digitsFrom_length (k fuel : nat) (n : Z) (acc : string) :
  0 <= n < 10 ^ Z.of_nat (S k) ->
  (String.length acc < String.length (JS.digitsFrom fuel n acc)
     <= String.length acc + S k)%nat.
Proof.
  revert k n acc. induction fuel as [|fuel IH]; intros k n acc B;
    cbn [JS.digitsFrom].
  - simpl. lia.
  - destruct (Z.ltb_spec n 10) as [L|G]; [simpl; lia|].
    destruct k as [|k]; [simpl in B; lia|].
    assert (0 <= n / 10 < 10 ^ Z.of_nat (S k)) as B'.
    { rewrite (Nat2Z.inj_succ (S k)), Z.pow_succ_r in B by lia. split.
      - apply Z.div_pos; lia.
      - apply Z.div_lt_upper_bound; lia. }
    specialize (IH k (n / 10) (String (JS.fromCharCode (48 + n mod 10)) acc) B').
    cbn [String.length] in IH. lia.
Qed.

Lemma digit_charCode (r : Z) :
  0 <= r < 10 -> JS.charCode (JS.fromCharCode (48 + r)) - 48 = r.
Proof.
  intros B.
  assert (r = 0 \/ r = 1 \/ r = 2 \/ r = 3 \/ r = 4 \/ r = 5 \/ r = 6
          \/ r = 7 \/ r = 8 \/ r = 9) as C by lia.
  repeat (destruct C as [-> | C]; [reflexivity|]). now rewrite C.
Qed.

Lemma digitsFrom_value (fuel : nat) (n : Z) (acc : string) :
  0 <= n < 10 ^ Z.of_nat (S fuel) ->
  decimalValueFrom 0 (JS.digitsFrom fuel n acc) = decimalValueFrom n acc.
Proof.
  revert n acc. induction fuel as [|fuel IH]; intros n acc B;
    cbn [JS.digitsFrom].
  - cbn [decimalValueFrom]. change (10 ^ Z.of_nat 1) with 10 in B.
    rewrite digit_charCode by (apply Z.mod_pos_bound; lia).
    rewrite Z.mod_small by lia. f_equal.
  - destruct (Z.ltb_spec n 10) as [L|G].
    + cbn [decimalValueFrom].
      rewrite digit_charCode by (apply Z.mod_pos_bound; lia).
      rewrite Z.mod_small by lia. f_equal.
    + rewrite IH.
      * cbn [decimalValueFrom].
        rewrite digit_charCode by (apply Z.mod_pos_bound; lia).
        f_equal. pose proof (Z.div_mod n 10 ltac:(lia)). lia.
      * rewrite (Nat2Z.inj_succ (S fuel)), Z.pow_succ_r in B by lia. split.
        -- apply Z.div_pos; lia.
        -- apply Z.div_lt_upper_bound; lia.
Qed.

(** [digits] is the decimal numeral: its digits denote the number. *)
Lemma digits_value (n : Z) : 0 <= n -> decimalValueFrom 0 (JS.digits n) = n.
Proof.
  intros B. unfold JS.digits. apply digitsFrom_value. split; [assumption|].
  destruct (Z.eq_dec n 0) as [->|N]; [reflexivity|].
  rewrite Nat2Z.inj_succ, Z2Nat.id by apply Z.log2_nonneg.
  apply Z.lt_le_trans with (2 ^ Z.succ (Z.log2 n)).
  - apply Z.log2_spec. lia.
  - apply Z.pow_le_mono_l. lia.
Qed.

Lemma pad_isDigits (w : nat) (n : Z) :
  0 <= n < 10 ^ Z.of_nat (S w) -> isDigits (S w) (pad (S w) n) = true.
Proof.
  intros B. unfold isDigits. rewrite pad_allDigits, andb_true_r.
  apply Nat.eqb_eq. unfold pad. rewrite padStart_length.
  pose proof (digitsFrom_length w (Z.to_nat (Z.log2 n)) n "" B) as L.
  fold (JS.digits n) in L. simpl in L. lia.
Qed.

Lemma pad2_isDigits (n : Z) : 0 <= n < 100 -> isDigits 2 (pad 2 n) = true.
Proof. intros B. apply pad_isDigits. simpl. lia. Qed.

Lemma pad4_isDigits (n : Z) : 0 <= n < 10000 -> isDigits 4 (pad 4 n) = true.
Proof. intros B. apply pad_isDigits. simpl. lia. Qed.

Lemma DayFromYear_succ (y : Z) : DayFromYear (y + 1) = DayFromYear y + DaysInYear y.
Proof.
  unfold DayFromYear, DaysInYear.
  replace (y + 1 - 1970) with (y - 1970 + 1) by lia.
  replace (y + 1 - 1969) with (y - 1968) by lia.
  replace (y + 1 - 1901) with (y - 1900) by lia.
  replace (y + 1 - 1601) with (y - 1600) by lia.
  destruct (Z.eqb_spec (y mod 4) 0) as [E4|E4]; cbn [negb];
    [|Z.to_euclidean_division_equations; lia].
  destruct (Z.eqb_spec (y mod 100) 0) as [E100|E100]; cbn [negb];
    [|Z.to_euclidean_division_equations; lia].
  destruct (Z.eqb_spec (y mod 400) 0) as [E400|E400]; cbn [negb];
    Z.to_euclidean_division_equations; lia.
Qed.

(** [YearFromTime t] is the year whose days contain [Day t]. *)
Lemma YearFromTime_bounds (t : Z) :
  DayFromYear (YearFromTime t) <= Day t < DayFromYear (YearFromTime t + 1).
Proof.
  unfold YearFromTime.
  set (d := Day t). clearbody d.
  set (y := 1970 + 400 * d / 146097).
  assert (Hy : 146097 * (y - 1970) <= 400 * d < 146097 * (y - 1970) + 146097).
  { unfold y. pose proof (Z.div_mod (400 * d) 146097 ltac:(lia)).
    pose proof (Z.mod_pos_bound (400 * d) 146097 ltac:(lia)). lia. }
  clearbody y.
  destruct (Z.ltb_spec d (DayFromYear y)).
  - unfold DayFromYear in *. replace (y - 1 + 1) with y by lia. split; [|lia].
    Z.to_euclidean_division_equations; lia.
  - destruct (Z.leb_spec (DayFromYear (y + 1)) d).
    + unfold DayFromYear in *. split; [lia|].
      Z.to_euclidean_division_equations; lia.
    + lia.
Qed.

(** It is the largest such year: the days of the years grow. *)
Lemma YearFromTime_largest (t y : Z) :
  DayFromYear y <= Day t -> y <= YearFromTime t.
Proof.
  intros L. pose proof (YearFromTime_bounds t) as [_ U].
  destruct (Z.le_gt_cases y (YearFromTime t)) as [|G]; [assumption|exfalso].
  assert (DayFromYear (YearFromTime t + 1) <= DayFromYear y); [|lia].
  unfold DayFromYear. Z.to_euclidean_division_equations; lia.
Qed.

Lemma DayWithinYear_bounds (t : Z) :
  0 <= DayWithinYear t < 365 + InLeapYear t.
Proof.
  unfold DayWithinYear, InLeapYear.
  pose proof (YearFromTime_bounds t) as B.
  rewrite DayFromYear_succ in B.
  assert (DaysInYear (YearFromTime t) = 365 \/ DaysInYear (YearFromTime t) = 366) as [E|E].
  { unfold DaysInYear. repeat destruct (negb _); auto. }
  - rewrite E in *. simpl. lia.
  - rewrite E in *. simpl. lia.
Qed.

Lemma InLeapYear_cases (t : Z) : InLeapYear t = 0 \/ InLeapYear t = 1.
Proof. unfold InLeapYear. destruct (_ =? _); auto. Qed.

Lemma MonthFromTime_bounds (t : Z) : 0 <= MonthFromTime t <= 11.
Proof.
  unfold MonthFromTime.
  repeat match goal with |- context [if ?b then _ else _] => destruct b end; lia.
Qed.

Lemma DateFromTime_bounds (t : Z) : 1 <= DateFromTime t <= 31.
Proof.
  unfold DateFromTime, MonthFromTime.
  pose proof (DayWithinYear_bounds t) as B.
  destruct (InLeapYear_cases t) as [L|L]; rewrite L in *;
    repeat match goal with
           | |- context [if ?a <? ?b then _ else _] => destruct (Z.ltb_spec a b)
           end; lia.
Qed.

Lemma isDigit_not_T (c : ascii) :
  JS.isDigit c = true -> negb (Ascii.eqb c "T") = true.
Proof.
  intros D. apply isDigit_iff in D.
  repeat (destruct D as [<- | D]; [reflexivity|]). destruct D.
Qed.

Lemma pad_no_T (w : nat) (n : Z) :
  allChars (fun c => negb (Ascii.eqb c "T")) (pad w n) = true.
Proof. apply (allChars_weaken JS.isDigit); [apply isDigit_not_T | apply pad_allDigits]. Qed.

Lemma isoYear_no_T (y : Z) :
  allChars (fun c => negb (Ascii.eqb c "T")) (isoYear y) = true.
Proof.
  unfold isoYear. destruct (_ && _); [apply pad_no_T|].
  destruct (_ <? _); rewrite allChars_append, pad_no_T; reflexivity.
Qed.

Lemma isoDate_no_T (t : Z) :
  allChars (fun c => negb (Ascii.eqb c "T")) (isoDate t) = true.
Proof.
  unfold isoDate. rewrite !allChars_append, isoYear_no_T, !pad_no_T. reflexivity.
Qed.

(** The date part of the ISO text is what precedes its [T]. *)
Lemma formatDate_isoDate (t : Z) : formatDate t = isoDate t.
Proof.
  unfold formatDate, toISOString. simpl (String.append "T" _).
  now rewrite split_append by apply isoDate_no_T.
Qed.

Lemma isDigits_2 (s : string) :
  isDigits 2 s = true ->
  exists a b, s = String a (String b "") /\ In a digitChars /\ In b digitChars.
Proof.
  unfold isDigits. rewrite andb_true_iff, Nat.eqb_eq. intros [L D].
  destruct s as [|a [|b [|c s]]]; try discriminate.
  simpl in D. rewrite !andb_true_iff in D. destruct D as (Da & Db & _).
  exists a, b. rewrite <- !isDigit_iff. auto.
Qed.

Lemma isDigits_4 (s : string) :
  isDigits 4 s = true ->
  exists a b c d, s = String a (String b (String c (String d "")))
    /\ In a digitChars /\ In b digitChars /\ In c digitChars /\ In d digitChars.
Proof.
  unfold isDigits. rewrite andb_true_iff, Nat.eqb_eq. intros [L D].
  destruct s as [|a [|b [|c [|d [|e s]]]]]; try discriminate.
  simpl in D. rewrite !andb_true_iff in D. destruct D as (Da & Db & Dc & Dd & _).
  exists a, b, c, d. rewrite <- !isDigit_iff. auto.
Qed.

(** In the years 0 to 9999 the ISO date has the shape YYYY-MM-DD. *)
Lemma isoDate_IsDateText (t : Z) :
  0 <= YearFromTime t <= 9999 -> IsDateText (isoDate t).
Proof.
  intros Y. unfold isoDate, isoYear.
  destruct (Z.leb_spec 0 (YearFromTime t)); [|lia].
  destruct (Z.leb_spec (YearFromTime t) 9999); [|lia]. simpl andb. cbv iota.
  pose proof (MonthFromTime_bounds t) as Bm.
  pose proof (DateFromTime_bounds t) as Bd.
  destruct (isDigits_4 _ (pad4_isDigits (YearFromTime t) ltac:(lia)))
    as (y1 & y2 & y3 & y4 & -> & ? & ? & ? & ?).
  destruct (isDigits_2 _ (pad2_isDigits (MonthFromTime t + 1) ltac:(lia)))
    as (m1 & m2 & -> & ? & ?).
  destruct (isDigits_2 _ (pad2_isDigits (DateFromTime t) ltac:(lia)))
    as (d1 & d2 & -> & ? & ?).
  exists y1, y2, y3, y4, m1, m2, d1, d2. split; [reflexivity|].
  repeat (apply Forall_cons; [assumption|]). apply Forall_nil.
Qed.

End DateFacts.

(* ================================================================== *)
(** ** The query interpreter *)
(* ================================================================== *)

Section Interpreter.
Variable host : Host.

(** A query with a date: the leftmost text of the shape YYYY-MM-DD. *)
Lemma extractDateFromQuery_found (query m : string) :
  JS.matchFirst datePattern query = Some m ->
  extractDateFromQuery host query = m
  /\ exists i, OccursAt m query i /\ IsDateText m
               /\ forall j m', OccursAt m' query j -> IsDateText m' -> (i <= j)%nat.
Proof.
  intros F. unfold extractDateFromQuery. rewrite F. split; [reflexivity|].
  destruct (matchFirst_Some _ _ _ F) as (i & O & Hm & Least).
  exists i. split; [assumption|]. split; [now apply matchesAll_datePattern|].
  intros j m' O' D'. apply (Least j m' O'). now apply matchesAll_datePattern.
Qed.

Lemma matchFirst_None_no_date (query : string) :
  JS.matchFirst datePattern query = None <->
  forall j m', OccursAt m' query j -> ~ IsDateText m'.
Proof.
  split.
  - intros F j m' O' D'. apply matchesAll_datePattern in D'.
    rewrite (matchFirst_None _ _ F j m' O') in D'. discriminate.
  - intros N. destruct (JS.matchFirst datePattern query) as [m|] eqn:F; [|reflexivity].
    destruct (matchFirst_Some _ _ _ F) as (i & O & Hm & _).
    exfalso. apply (N i m O). now apply matchesAll_datePattern.
Qed.

(** A query without a date: the date of the clock. *)
Lemma extractDateFromQuery_default (query : string) :
  (forall j m', OccursAt m' query j -> ~ IsDateText m') ->
  extractDateFromQuery host query = formatDate (now host).
Proof.
  intros N. unfold extractDateFromQuery.
  now rewrite (proj2 (matchFirst_None_no_date query) N).
Qed.

Lemma includes_lower_iff (q kw : string) :
  JS.toLowerCase kw = kw ->
  JS.includes (JS.toLowerCase q) kw = true <-> ContainsIgnoringCase q kw.
Proof.
  intros K. rewrite includes_iff. unfold ContainsIgnoringCase, JS.toLowerCase in *.
  split.
  - intros (pre & post & E).
    apply mapChars_append_inv in E. destruct E as (a & r & -> & Ea & Er).
    apply mapChars_append_inv in Er. destruct Er as (b & c & -> & Eb & Ec).
    exists a, b, c. split; [reflexivity | congruence].
  - intros (pre & mid & post & -> & E).
    exists (JS.mapChars JS.lowerChar pre), (JS.mapChars JS.lowerChar post).
    rewrite !mapChars_append. congruence.
Qed.

Lemma extractSportFromQuery_nfl (query : string) :
  extractSportFromQuery query = "nfl" <->
  ContainsIgnoringCase query "nfl" \/ ContainsIgnoringCase query "football".
Proof.
  unfold extractSportFromQuery.
  rewrite <- !includes_lower_iff by reflexivity.
  destruct (JS.includes (JS.toLowerCase query) "nfl");
    destruct (JS.includes (JS.toLowerCase query) "football"); simpl orb; cbv iota;
    try (split; [auto | reflexivity]).
  destruct (_ || _); split; try discriminate; intros [|]; discriminate.
Qed.

Lemma extractSportFromQuery_default (query : string) :
  ~ (ContainsIgnoringCase query "nfl" \/ ContainsIgnoringCase query "football") ->
  extractSportFromQuery query = "nba".
Proof.
  intros N. rewrite <- extractSportFromQuery_nfl in N.
  unfold extractSportFromQuery in *.
  destruct (_ || _); [now exfalso; apply N|].
  destruct (_ || _); reflexivity.
Qed.

End Interpreter.

(** C1. Date extraction returns the leftmost substring of the query of the
    shape YYYY-MM-DD, verbatim and without a calendar check (2024-13-40 is
    passed through); a query with no such substring gets the date of the
    host clock, which [formatDate] renders from the UTC year, month and day
    of the ISO text and which has the shape YYYY-MM-DD in the years 0 to
    9999. *)
Theorem extractDateFromQuery_first_match_or_today (host : Host) (query : string) :
  ((exists i m,
       OccursAt m query i /\ IsDateText m
       /\ (forall j m', OccursAt m' query j -> IsDateText m' -> (i <= j)%nat)
       /\ extractDateFromQuery host query = m)
   \/ ((forall j m', OccursAt m' query j -> ~ IsDateText m')
       /\ extractDateFromQuery host query = formatDate (now host)))
  /\ formatDate (now host)
     = JSDate.isoYear (JSDate.YearFromTime (now host)) ++ "-"
       ++ JSDate.pad 2 (JSDate.MonthFromTime (now host) + 1) ++ "-"
       ++ JSDate.pad 2 (JSDate.DateFromTime (now host))
  /\ (0 <= JSDate.YearFromTime (now host) <= 9999 ->
      IsDateText (formatDate (now host)))
  /\ extractDateFromQuery host "stats for 2024-13-40 please" = "2024-13-40".
Proof.
  split; [|split; [|split]].
  - destruct (JS.matchFirst datePattern query) as [m|] eqn:F.
    + left. destruct (extractDateFromQuery_found host query m F)
        as (E & i & O & D & Least).
      exists i, m. repeat split; assumption.
    + right. pose proof (proj1 (matchFirst_None_no_date query) F) as N.
      split; [assumption | now apply extractDateFromQuery_default].
  - apply formatDate_isoDate.
  - intros Y. rewrite formatDate_isoDate. now apply isoDate_IsDateText.
  - reflexivity.
Qed.

(** The clock of the sample host reads a day of 2024, so the default date
    of a query without a date is a text of the shape YYYY-MM-DD. *)
Lemma extractDateFromQuery_today_witness :
  IsDateText (formatDate (now (Sample.hostWith (Sample.okResponse [])))).
Proof.
  pose proof (extractDateFromQuery_first_match_or_today
                (Sample.hostWith (Sample.okResponse [])) "Get NBA games") as K.
  destruct K as (_ & _ & Shape & _). apply Shape.
  vm_compute. split; discriminate.
Defined.

(** C2. Sport extraction is a case-insensitive substring test: a query
    that contains nfl or football gives nfl, whether or not it also names
    nba or basketball; otherwise the result is nba, with or without an nba
    keyword. *)
Theorem extractSportFromQuery_keywords (query : string) :
  let namesNfl :=
    ContainsIgnoringCase query "nfl" \/ ContainsIgnoringCase query "football" in
  let namesNba :=
    ContainsIgnoringCase query "nba" \/ ContainsIgnoringCase query "basketball" in
  (namesNfl -> extractSportFromQuery query = "nfl")
  /\ (~ namesNfl -> namesNba -> extractSportFromQuery query = "nba")
  /\ (namesNfl -> namesNba -> extractSportFromQuery query = "nfl")
  /\ (~ namesNfl -> ~ namesNba -> extractSportFromQuery query = "nba").
Proof.
  intros namesNfl namesNba. repeat split.
  - apply extractSportFromQuery_nfl.
  - intros N _. now apply extractSportFromQuery_default.
  - intros N _. now apply extractSportFromQuery_nfl.
  - intros N _. now apply extractSportFromQuery_default.
Qed.

(** A query that names both sports, in capitals, is a football query. *)
Lemma extractSportFromQuery_both_witness :
  extractSportFromQuery "NBA or NFL tonight" = "nfl".
Proof.
  pose proof (extractSportFromQuery_keywords "NBA or NFL tonight") as K.
  cbv zeta in K. destruct K as (_ & _ & Both & _). apply Both.
  - left. exists "NBA or ", "NFL", " tonight". split; reflexivity.
  - left. exists "", "NBA", " or NFL tonight". split; reflexivity.
Defined.

(* ================================================================== *)
(** ** Sorting by a numeric key, largest first *)
(* ================================================================== *)

Section SortFacts.
Context {A : Type}.
Variable key : A -> Q.

Lemma descendingBy_le (x y : A) :
  Qle_bool (descendingBy key x y) 0 = true <-> (key y <= key x)%Q.
Proof.
  unfold descendingBy. rewrite Qle_bool_iff. split; intros L.
  - apply Qle_minus_iff in L. apply Qle_minus_iff.
    setoid_replace (key x + - key y)%Q with (0 + - (key y - key x))%Q by ring.
    exact L.
  - apply Qle_minus_iff in L. apply Qle_minus_iff.
    setoid_replace (0 + - (key y - key x))%Q with (key x + - key y)%Q by ring.
    exact L.
Qed.

Lemma insertBy_Permutation (x : A) (l : list A) :
  Permutation (JS.insertBy (descendingBy key) x l) (x :: l).
Proof.
  induction l as [|y l IH]; simpl; [reflexivity|].
  destruct (Qle_bool (descendingBy key x y) 0); [reflexivity|].
  rewrite IH. apply perm_swap.
Qed.

Lemma sort_Permutation (l : list A) :
  Permutation (JS.sort (descendingBy key) l) l.
Proof.
  induction l as [|x l IH]; simpl; [reflexivity|].
  unfold JS.sort in *. now rewrite insertBy_Permutation, IH.
Qed.

Lemma insertBy_sorted (x : A) (l : list A) :
  StronglySorted (fun a b => (key b <= key a)%Q) l ->
  StronglySorted (fun a b => (key b <= key a)%Q)
    (JS.insertBy (descendingBy key) x l).
Proof.
  induction 1 as [|y l S IH F]; simpl.
  - repeat constructor.
  - destruct (Qle_bool (descendingBy key x y) 0) eqn:C.
    + apply descendingBy_le in C.
      constructor; [now constructor|].
      constructor; [assumption|].
      eapply Forall_impl; [|exact F]. intros b Hb. cbv beta in *.
      now apply Qle_trans with (key y).
    + assert (key x <= key y)%Q as L.
      { apply Qlt_le_weak, Qnot_le_lt. intros L.
        apply descendingBy_le in L. congruence. }
      constructor; [assumption|].
      apply (Permutation_Forall (Permutation_sym (insertBy_Permutation x l))).
      now constructor.
Qed.

Lemma sort_sorted (l : list A) :
  StronglySorted (fun a b => (key b <= key a)%Q) (JS.sort (descendingBy key) l).
Proof.
  induction l as [|x l IH]; simpl; [constructor|].
  now apply insertBy_sorted.
Qed.

(** The sort is stable: players with equal keys keep their order. *)
Lemma insertBy_stable (q : Q) (x : A) (l : list A) :
  filter (fun a => Qeq_bool (key a) q) (JS.insertBy (descendingBy key) x l)
  = filter (fun a => Qeq_bool (key a) q) (x :: l).
Proof.
  induction l as [|y l IH]; [reflexivity|].
  cbn [JS.insertBy]. destruct (Qle_bool (descendingBy key x y) 0) eqn:C;
    [reflexivity|].
  cbn [filter] in *. rewrite IH.
  destruct (Qeq_bool (key x) q) eqn:Ex, (Qeq_bool (key y) q) eqn:Ey;
    try reflexivity.
  exfalso. apply Qeq_bool_iff in Ex, Ey.
  assert (Qle_bool (descendingBy key x y) 0 = true); [|congruence].
  apply descendingBy_le. rewrite Ex, Ey. apply Qle_refl.
Qed.

Lemma sort_stable (q : Q) (l : list A) :
  filter (fun a => Qeq_bool (key a) q) (JS.sort (descendingBy key) l)
  = filter (fun a => Qeq_bool (key a) q) l.
Proof.
  induction l as [|x l IH]; [reflexivity|].
  unfold JS.sort in *. cbn [fold_right]. rewrite insertBy_stable.
  cbn [filter]. now rewrite IH.
Qed.

End SortFacts.

(* ================================================================== *)
(** ** The players view *)
(* ================================================================== *)

Section PlayersView.

Lemma digitsFrom_longer (fuel : nat) (n : Z) (acc : string) :
  (String.length acc < String.length (JS.digitsFrom fuel n acc))%nat.
Proof.
  revert n acc. induction fuel as [|fuel IH]; intros n acc; cbn [JS.digitsFrom].
  - cbn [String.length]. lia.
  - destruct (n <? 10); [cbn [String.length]; lia|].
    specialize (IH (n / 10) (String (JS.fromCharCode (48 + n mod 10)) acc)).
    cbn [String.length] in IH. lia.
Qed.

Lemma digits_one_digit (n : Z) : 0 <= n < 10 -> String.length (JS.digits n) = 1%nat.
Proof.
  intros B. pose proof (digitsFrom_length 0 (Z.to_nat (Z.log2 n)) n "") as L.
  fold (JS.digits n) in L. simpl in L. lia.
Qed.

Lemma digits_two_digits (n : Z) : 10 <= n -> (2 <= String.length (JS.digits n))%nat.
Proof.
  intros B. unfold JS.digits.
  assert (3 <= Z.log2 n) as L by (change 3 with (Z.log2 10); now apply Z.log2_le_mono).
  destruct (Z.to_nat (Z.log2 n)) as [|fuel] eqn:E; [lia|].
  cbn [JS.digitsFrom]. destruct (Z.ltb_spec n 10); [lia|].
  pose proof (digitsFrom_longer fuel (n / 10)
                (String (JS.fromCharCode (48 + n mod 10)) "")) as G.
  cbn [String.length] in G. lia.
Qed.

Lemma digits_nonempty (n : Z) : (1 <= String.length (JS.digits n))%nat.
Proof.
  unfold JS.digits.
  pose proof (digitsFrom_longer (Z.to_nat (Z.log2 n)) n ""). lia.
Qed.

(** [padStart(2, '0')] on the seconds adds a zero below ten and nothing
    otherwise. *)
Lemma padStart_seconds (s : Z) :
  JS.padStart 2 "0" (JS.NumberToString s) = twoDigitSeconds s.
Proof.
  unfold twoDigitSeconds, JS.padStart, JS.NumberToString.
  destruct (Z.ltb_spec s 0) as [N|P].
  - destruct (Z.leb_spec 0 s); [lia|]. cbn [andb].
    rewrite length_append. pose proof (digits_nonempty (- s)).
    replace (2 - _)%nat with 0%nat by (cbn [String.length]; lia). reflexivity.
  - destruct (Z.leb_spec 0 s); [|lia]. cbn [andb].
    destruct (Z.ltb_spec s 10) as [S|G].
    + rewrite digits_one_digit by lia. reflexivity.
    + pose proof (digits_two_digits s G).
      replace (2 - _)%nat with 0%nat by lia. reflexivity.
Qed.

Lemma In_firstn {A : Type} (n : nat) (l : list A) (x : A) :
  In x (firstn n l) -> In x l.
Proof.
  intros I. rewrite <- (firstn_skipn n l). apply in_or_app. now left.
Qed.

Lemma formatPlayerStats_unfold (d : IKBGameData) :
  formatPlayerStats d =
  JS.join (JS.LF ++ JS.LF)
    (map playerBlock
       (firstn 10
          (JS.sort (fun a b => Qminus (rankingPoints b) (rankingPoints a))
             (filter Player.played (players d))))).
Proof.
  unfold formatPlayerStats. f_equal. apply map_ext. intros p.
  rewrite padStart_seconds. unfold playerBlock, JS.join. cbn [String.concat].
  rewrite !append_assoc. reflexivity.
Qed.

End PlayersView.

(** C3. The players view shows the players who played, ranked by fantasy
    points from the largest down with a missing value counted as zero
    (players with equal points keep their order), cut after the tenth; the
    blocks ([playerBlock]: name, position and minutes:seconds with two-digit
    seconds, then points, rebounds and assists, then field goals and
    three-pointers as made/attempted) are separated by a blank line.  Of two
    players with a positive and a missing value, the one with the positive
    value comes first. *)
Theorem formatPlayerStats_ranked_top_ten (d : IKBGameData) :
  (exists ranked : list Player.t,
      Permutation ranked (filter Player.played (players d))
      /\ StronglySorted (fun a b => (rankingPoints b <= rankingPoints a)%Q) ranked
      /\ (forall q, filter (fun p => Qeq_bool (rankingPoints p) q) ranked
                    = filter (fun p => Qeq_bool (rankingPoints p) q)
                        (filter Player.played (players d)))
      /\ formatPlayerStats d
         = JS.join (JS.LF ++ JS.LF) (map playerBlock (firstn 10 ranked))
      /\ (List.length (firstn 10 ranked) <= 10)%nat
      /\ (forall p, In p (firstn 10 ranked) ->
                    In p (players d) /\ Player.played p = true))
  /\ (forall s, 0 <= s < 10 -> twoDigitSeconds s = "0" ++ JS.NumberToString s)
  /\ (forall a b q,
         players d = [a; b] ->
         Player.played a = true -> Player.played b = true ->
         Player.fantasyPoints a = None -> Player.fantasyPoints b = Some q ->
         (0 < q)%Q ->
         formatPlayerStats d = playerBlock b ++ JS.LF ++ JS.LF ++ playerBlock a).
Proof.
  split; [|split].
  - exists (JS.sort (fun a b => Qminus (rankingPoints b) (rankingPoints a))
              (filter Player.played (players d))).
    split; [apply (sort_Permutation rankingPoints)|].
    split; [apply (sort_sorted rankingPoints)|].
    split; [intros q; apply (sort_stable rankingPoints)|].
    split; [apply formatPlayerStats_unfold|].
    split; [apply firstn_le_length|].
    intros p I. apply In_firstn in I.
    apply (Permutation_in _ (sort_Permutation rankingPoints _)) in I.
    now apply filter_In in I.
  - intros s B. unfold twoDigitSeconds.
    destruct (Z.leb_spec 0 s); [|lia]. destruct (Z.ltb_spec s 10); [|lia]. reflexivity.
  - intros a b q P Pa Pb Fa Fb Q0.
    rewrite formatPlayerStats_unfold, P. cbn [filter]. rewrite Pa, Pb.
    cbn [JS.sort fold_right JS.insertBy]. unfold rankingPoints at 1 2.
    rewrite Fa, Fb.
    destruct (Qle_bool (q - 0) 0) eqn:C.
    + apply Qle_bool_iff in C. exfalso. apply (Qlt_not_le _ _ Q0).
      setoid_replace q with (q - 0)%Q by ring. exact C.
    + reflexivity.
Qed.

(** Two players of the sample record: Ann has no fantasy points, Bob has
    30, and Bob is listed first. *)
Lemma formatPlayerStats_missing_last_witness :
  formatPlayerStats
    {| game := Sample.theGame; teams := [];
       players := [Sample.player "Ann" true 5 None;
                   Sample.player "Bob" true 42 (Some (30 # 1))] |}
  = playerBlock (Sample.player "Bob" true 42 (Some (30 # 1)))
      ++ JS.LF ++ JS.LF ++ playerBlock (Sample.player "Ann" true 5 None).
Proof.
  pose proof (formatPlayerStats_ranked_top_ten
                {| game := Sample.theGame; teams := [];
                   players := [Sample.player "Ann" true 5 None;
                               Sample.player "Bob" true 42 (Some (30 # 1))] |}) as K.
  destruct K as (_ & _ & Two).
  apply (Two _ _ (30 # 1)); reflexivity.
Defined.

(* ================================================================== *)
(** ** The game view and the teams view *)
(* ================================================================== *)

Section GameView.
Variable host : Host.

Lemma formatGameSummary_lines (d : IKBGameData) :
  formatGameSummary host d = JS.join JS.LF (gameLines host (game d)).
Proof.
  unfold formatGameSummary, gameLines, JS.join. cbn [String.concat].
  rewrite !append_assoc. reflexivity.
Qed.

Lemma isDigit_other (c x : ascii) :
  JS.isDigit x = false -> JS.isDigit c = true -> negb (Ascii.eqb c x) = true.
Proof.
  intros Nx Dc. destruct (Ascii.eqb_spec c x) as [->|]; [congruence | reflexivity].
Qed.

Lemma digits_oneLine (n : Z) : oneLine (JS.digits n) = true.
Proof.
  apply (allChars_weaken JS.isDigit); [|apply digits_allDigits].
  intros c. now apply isDigit_other.
Qed.

Lemma NumberToString_oneLine (n : Z) : oneLine (JS.NumberToString n) = true.
Proof.
  unfold JS.NumberToString. destruct (n <? 0); [|apply digits_oneLine].
  unfold oneLine. rewrite allChars_append. fold (oneLine (JS.digits (- n))).
  now rewrite digits_oneLine.
Qed.

Lemma oneLine_append (a b : string) : oneLine (a ++ b) = oneLine a && oneLine b.
Proof. apply allChars_append. Qed.

Lemma quarterText_oneLine (q : Quarter.t) : oneLine (quarterText q) = true.
Proof.
  unfold quarterText. rewrite !oneLine_append, !NumberToString_oneLine. reflexivity.
Qed.

Lemma join_cons (sep x y : string) (l : list string) :
  JS.join sep (x :: y :: l) = x ++ sep ++ JS.join sep (y :: l).
Proof. reflexivity. Qed.

Lemma join_oneLine (sep : string) (parts : list string) :
  oneLine sep = true -> Forall (fun s => oneLine s = true) parts ->
  oneLine (JS.join sep parts) = true.
Proof.
  intros Hsep F. induction F as [|x l Hx F IH]; [reflexivity|].
  destruct l as [|y l]; [assumption|].
  now rewrite join_cons, !oneLine_append, Hx, Hsep, IH.
Qed.

(** Lines without a line feed, joined by line feeds, split back into
    themselves. *)
Lemma split_join_lines (x : string) (l : list string) :
  Forall (fun s => oneLine s = true) (x :: l) ->
  JS.split JS.LFchar (JS.join JS.LF (x :: l)) = x :: l.
Proof.
  revert x. induction l as [|y l IH]; intros x F; inversion F as [|? ? Hx F']; subst.
  - now apply split_no_sep.
  - rewrite join_cons. unfold JS.LF at 1. cbn [String.append].
    rewrite split_append by exact Hx. now rewrite IH.
Qed.

Lemma gameLines_oneLine (g : Game.t) :
  oneLine (Game.awayTeam g) = true -> oneLine (Game.homeTeam g) = true ->
  oneLine (toLocaleDateString host (Game.dateTime g)) = true ->
  oneLine (Game.status g) = true -> oneLine (Game.stadium g) = true ->
  Forall (fun s => oneLine s = true) (gameLines host g).
Proof.
  intros Ha Hh Hd Hs Hv. unfold gameLines.
  repeat apply Forall_cons; try apply Forall_nil;
    rewrite !oneLine_append, ?NumberToString_oneLine, ?Ha, ?Hh, ?Hd, ?Hs, ?Hv;
    try reflexivity.
  rewrite join_oneLine; [reflexivity | reflexivity |].
  apply Forall_forall. intros s I. apply in_map_iff in I.
  destruct I as (q & <- & _). apply quarterText_oneLine.
Qed.

End GameView.

(** C8. The game view is five lines joined by line feeds: away team and
    score, an at sign, home team and score; the localized date; every period
    as Q, its number, a colon and away-home scores, joined by commas (two
    periods 1: 20-18 and 2: 15-20 give the listing Q1: 20-18, Q2: 15-20);
    the status; the venue.  The last four lines carry the labels Date,
    Quarter Scores, Status and Stadium.  When no text field holds a line
    feed, splitting the view at line feeds gives back exactly these five. *)
Theorem formatGameSummary_five_lines (host : Host) (d : IKBGameData) :
  let g := game d in
  formatGameSummary host d = JS.join JS.LF (gameLines host g)
  /\ gameLines host g
     = [ Game.awayTeam g ++ " " ++ JS.NumberToString (Game.awayTeamScore g) ++ " @ "
           ++ Game.homeTeam g ++ " " ++ JS.NumberToString (Game.homeTeamScore g);
         "Date: " ++ toLocaleDateString host (Game.dateTime g);
         "Quarter Scores: " ++ JS.join ", " (map quarterText (Game.quarters g));
         "Status: " ++ Game.status g;
         "Stadium: " ++ Game.stadium g ]
  /\ (Game.quarters g
      = [ {| Quarter.number := 1; Quarter.awayScore := 20; Quarter.homeScore := 18 |};
          {| Quarter.number := 2; Quarter.awayScore := 15; Quarter.homeScore := 20 |} ] ->
      JS.join ", " (map quarterText (Game.quarters g)) = "Q1: 20-18, Q2: 15-20")
  /\ (oneLine (Game.awayTeam g) = true -> oneLine (Game.homeTeam g) = true ->
      oneLine (toLocaleDateString host (Game.dateTime g)) = true ->
      oneLine (Game.status g) = true -> oneLine (Game.stadium g) = true ->
      JS.split JS.LFchar (formatGameSummary host d) = gameLines host g).
Proof.
  intros g. split; [apply formatGameSummary_lines|]. split; [reflexivity|]. split.
  - intros ->. reflexivity.
  - intros Ha Hh Hd Hs Hv. rewrite formatGameSummary_lines.
    pose proof (gameLines_oneLine host g Ha Hh Hd Hs Hv) as F.
    unfold gameLines in *. now apply split_join_lines.
Qed.

(** The game of the sample record, with its two periods. *)
Lemma formatGameSummary_sample_witness :
  JS.join ", " (map quarterText (Game.quarters (game Sample.record)))
    = "Q1: 20-18, Q2: 15-20"
  /\ JS.split JS.LFchar
       (formatGameSummary (Sample.hostWith (Sample.okResponse [])) Sample.record)
     = [ "BOS 105 @ LAL 110"; "Date: 2024-12-15";
         "Quarter Scores: Q1: 20-18, Q2: 15-20"; "Status: Final";
         "Stadium: Crypto.com Arena" ].
Proof.
  pose proof (formatGameSummary_five_lines
                (Sample.hostWith (Sample.okResponse [])) Sample.record) as K.
  cbv zeta in K. destruct K as (_ & _ & Quarters & Lines). split.
  - apply Quarters. reflexivity.
  - rewrite Lines by reflexivity. reflexivity.
Defined.

Section TeamsView.

(** [toFixed] throws only for a digit count outside 0 to 100. *)
Lemma toFixed_in_range (f : Z) (x : Q) :
  0 <= f <= 100 -> exists s, JS.toFixed f x = inr s.
Proof.
  intros B. unfold JS.toFixed.
  destruct (Z.ltb_spec f 0); [lia|]. destruct (Z.ltb_spec 100 f); [lia|].
  cbn [orb]. eexists. reflexivity.
Qed.

Lemma mapM_total {A B : Type} (f : A -> Result.t B) (l : list A) :
  (forall x, exists y, f x = inr y) ->
  exists ys, Result.mapM f l = inr ys /\ List.length ys = List.length l.
Proof.
  intros T. induction l as [|x l (ys & E & L)]; cbn [Result.mapM].
  - now exists [].
  - destruct (T x) as [y ->]. cbn [Result.bind]. rewrite E. cbn [Result.bind].
    exists (y :: ys). simpl. now rewrite L.
Qed.

Lemma formatTeamStats_total (d : IKBGameData) :
  exists blocks,
    formatTeamStats d = inr (JS.join (JS.LF ++ JS.LF) blocks)
    /\ List.length blocks = List.length (teams d).
Proof.
  unfold formatTeamStats.
  match goal with
  | |- context [Result.mapM ?f _] =>
      destruct (mapM_total f (teams d)) as (blocks & E & L)
  end.
  - intros team.
    destruct (toFixed_in_range 1 (Team.fieldGoalsPercentage team) ltac:(lia)) as [fg ->].
    destruct (toFixed_in_range 1 (Team.threePointersPercentage team) ltac:(lia)) as [tp ->].
    cbn [Result.bind]. eexists. reflexivity.
  - rewrite E. cbn [Result.bind]. exists blocks. split; [reflexivity | exact L].
Qed.

End TeamsView.

(** C9. On every game record none of the three formatters throws: the
    game view and the players view are strings, and the teams view, whose
    [toFixed] calls could throw, returns a string of one block per team; so
    the view the handler picks for a first game is a string whatever the
    configured view.  With no teams the teams view is empty, with no players
    the players view is empty, and with no periods the quarter line of the
    game view is its bare label. *)
Theorem formatters_never_throw (host : Host) (d : IKBGameData) :
  exists gameText teamsText playersText : string,
    formatGameSummary host d = gameText
    /\ formatTeamStats d = inr teamsText
    /\ formatPlayerStats d = playersText
    /\ (exists blocks, teamsText = JS.join (JS.LF ++ JS.LF) blocks
                       /\ List.length blocks = List.length (teams d))
    /\ (forall self rest,
           viewOfFirstGame host self (d :: rest) = inr gameText
           \/ viewOfFirstGame host self (d :: rest) = inr teamsText
           \/ viewOfFirstGame host self (d :: rest) = inr playersText)
    /\ (teams d = [] -> teamsText = "")
    /\ (players d = [] -> playersText = "")
    /\ (Game.quarters (game d) = [] ->
        nth 2 (gameLines host (game d)) "" = "Quarter Scores: "
        /\ gameText = JS.join JS.LF (gameLines host (game d))).
Proof.
  destruct (formatTeamStats_total d) as (blocks & E & L).
  exists (formatGameSummary host d), (JS.join (JS.LF ++ JS.LF) blocks),
    (formatPlayerStats d).
  split; [reflexivity|]. split; [assumption|]. split; [reflexivity|].
  split; [now exists blocks|]. split; [|split; [|split]].
  - intros self rest. unfold viewOfFirstGame.
    destruct (searchType (config self)) as [[| |]|]; auto.
  - intros T. rewrite T in L. destruct blocks; [reflexivity | discriminate].
  - intros P. unfold formatPlayerStats. rewrite P. reflexivity.
  - intros Q. split; [|apply formatGameSummary_lines].
    unfold gameLines. rewrite Q. reflexivity.
Qed.

(** The record with no teams, no players and no periods. *)
Lemma formatters_empty_witness :
  formatTeamStats Sample.emptyRecord = inr ""
  /\ formatPlayerStats Sample.emptyRecord = "".
Proof.
  destruct (formatters_never_throw (Sample.hostWith (Sample.okResponse []))
              Sample.emptyRecord)
    as (g & t & p & _ & Et & Ep & _ & _ & T0 & P0 & _).
  rewrite Et, Ep, (T0 eq_refl), (P0 eq_refl). split; reflexivity.
Defined.

(* ================================================================== *)
(** ** The action: [validate] and [handler] *)
(* ================================================================== *)

Section Action.
Context `{CommonUtils}.
Variable host : Host.
Variable self : IKBSearchPlugin.
Variable runtime : IAgentRuntime.
Variable message : Memory.

(** A denied call returns at once. *)
Lemma handler_denied (w : World) (l : RateLimiter) :
  checkLimit (now host) (limiter w) = (false, l) ->
  handler host self runtime message w = (rateLimitExceeded, logged w l []).
Proof.
  intros C.
  cbv beta iota delta [handler tryCatch handlerBody rateLimiter_checkLimit bind ret].
  rewrite C. cbn. unfold logged. now rewrite app_nil_r.
Qed.

(** A query that fails validation makes no call. *)
Lemma handler_invalid (w : World) (l : RateLimiter) (e : JS.Error) :
  checkLimit (now host) (limiter w) = (true, l) ->
  validateSearchQuery (text (content message)) = inl e ->
  handler host self runtime message w = (handleApiError e, logged w l []).
Proof.
  intros C V.
  cbv beta iota delta [handler tryCatch handlerBody rateLimiter_checkLimit bind
                       liftResult].
  rewrite C. cbv beta iota zeta. cbn [negb limiter trace]. rewrite V.
  unfold logged. now rewrite app_nil_r.
Qed.

(** The run of an allowed call with a valid query, step by step. *)
Lemma handler_allowed (w : World) (l : RateLimiter) (query : string) :
  checkLimit (now host) (limiter w) = (true, l) ->
  validateSearchQuery (text (content message)) = inr query ->
  let sport := extractSportFromQuery query in
  let date := extractDateFromQuery host query in
  let req := HttpRequest (apiUrl sport date) (apiRequest (apiKey (config self))) in
  handler host self runtime message w =
  match fetch host (apiUrl sport date) (apiRequest (apiKey (config self))) with
  | inl e => (handleApiError e, logged w l [req])
  | inr resp =>
      if negb (ok resp)
      then (handleApiError (JS.mkError "Error" ("IKB API error: " ++ statusText resp)),
            logged w l [req])
      else
        match json resp with
        | inl e => (handleApiError e, logged w l [req])
        | inr answer =>
            match getMemoryManager runtime with
            | inl e => (handleApiError e, logged w l [req; GetMemoryManager])
            | inr memoryManager =>
                let record := memoryRecord sport date (data answer) in
                let w' := logged w l [req; GetMemoryManager; CreateMemory record true] in
                match createMemory memoryManager record true with
                | inl e => (handleApiError e, w')
                | inr _ =>
                    match viewOfFirstGame host self (data answer) with
                    | inl e => (handleApiError e, w')
                    | inr text =>
                        ({| success := true;
                            response :=
                              formatSearchResults
                                [searchResultFor self sport date text] |}, w')
                    end
                end
            end
        end
  end.
Proof.
  intros C V sport date req.
  cbv beta iota delta [handler tryCatch handlerBody fetchFromAPI memorizeData
                       rateLimiter_checkLimit bind liftResult emit throw ret].
  rewrite C. cbv beta iota zeta. cbn [negb limiter trace]. rewrite V.
  cbv beta iota zeta. fold sport date. unfold logged.
  change ("https://api.ikb.gg/ai/" ++ sport ++ "/" ++ date) with (apiUrl sport date).
  change {| method := "GET";
            headers := [("Content-Type", "application/json");
                        ("Authorization", "Bearer " ++ apiKey (config self))] |}
    with (apiRequest (apiKey (config self))).
  fold req.
  destruct (fetch host (apiUrl sport date) (apiRequest (apiKey (config self))))
    as [e|resp]; [reflexivity|].
  destruct (ok resp); cbn [negb]; [|reflexivity].
  destruct (json resp) as [e|answer]; [reflexivity|].
  cbn [limiter trace].
  destruct (getMemoryManager runtime) as [e|memoryManager];
    [rewrite <- app_assoc; reflexivity|].
  cbn [limiter trace].
  change {| mem_content := _; roomId := _; userId := _ |}
    with (memoryRecord sport date (data answer)).
  rewrite <- !app_assoc. cbn [app].
  destruct (createMemory memoryManager _ true) as [e|[]]; [reflexivity|].
  unfold viewOfFirstGame, searchResultFor.
  destruct (data answer) as [|gameData rest]; [reflexivity|].
  destruct (searchType (config self)) as [[| |]|];
    try reflexivity.
  destruct (formatTeamStats gameData); reflexivity.
Qed.

End Action.

(** C10. [validate] always answers: true exactly when
    [validateSearchQuery] accepts the text of the message, false exactly when
    it throws, so that no validation error leaves the predicate. *)
Theorem validate_total `{CommonUtils} (message : Memory) :
  (validate message = true
   <-> exists query, validateSearchQuery (text (content message)) = inr query)
  /\ (validate message = false
      <-> exists e, validateSearchQuery (text (content message)) = inl e).
Proof.
  unfold validate.
  destruct (validateSearchQuery (text (content message))) as [e|query];
    cbn [Result.bind Result.tryCatch]; split; split; intros K;
    try reflexivity; try discriminate; try (destruct K; discriminate).
  - now exists e.
  - now exists query.
Qed.

(** With a validator that throws on the empty query, the empty query is
    not valid. *)
Lemma validate_empty_query_witness : validate (Sample.ask "") = false.
Proof.
  apply (proj2 (validate_total (Sample.ask ""))).
  exists (JS.mkError "ValidationError" "Search query is required"). reflexivity.
Defined.

(** C4. When the limiter denies the call, the handler returns the
    rate-limit answer at once: the trace of external calls is unchanged, so
    no HTTP request was issued and the memory store was not contacted. *)
Theorem handler_rate_limited `{CommonUtils} (host : Host) (self : IKBSearchPlugin)
    (runtime : IAgentRuntime) (message : Memory) (w : World) :
  fst (checkLimit (now host) (limiter w)) = false ->
  fst (handler host self runtime message w)
    = {| success := false;
         response := "Rate limit exceeded. Please try again later." |}
  /\ trace (snd (handler host self runtime message w)) = trace w
  /\ requestedUrls (trace (snd (handler host self runtime message w)))
     = requestedUrls (trace w)
  /\ memoryCalls (trace (snd (handler host self runtime message w)))
     = memoryCalls (trace w).
Proof.
  intros D. destruct (checkLimit (now host) (limiter w)) as [allowed l] eqn:C.
  cbn [fst] in D. subst allowed.
  rewrite (handler_denied host self runtime message w l C).
  cbn [fst snd logged trace]. rewrite app_nil_r. repeat split.
Qed.

(** The sample limiter with a full window denies the call. *)
Lemma handler_rate_limited_witness :
  handler Sample.oneGameHost (Sample.plugin None None) Sample.goodRuntime
    (Sample.ask "NFL stats from 2024-12-22") Sample.exhaustedWorld
  = ({| success := false;
        response := "Rate limit exceeded. Please try again later." |},
     Sample.exhaustedWorld).
Proof.
  pose proof (handler_rate_limited Sample.oneGameHost (Sample.plugin None None)
                Sample.goodRuntime (Sample.ask "NFL stats from 2024-12-22")
                Sample.exhaustedWorld eq_refl) as (R & T & _).
  destruct (handler _ _ _ _ _) as [r w'] eqn:E. cbn [fst snd] in R, T.
  subst r. f_equal. destruct w' as [l' t']. cbn [trace] in T. subst t'.
  apply (f_equal (fun p => limiter (snd p))) in E. cbn [snd limiter] in E.
  rewrite <- E. reflexivity.
Defined.

(** C6. Whatever the [try] block of the handler throws is caught and
    turned into [{ success: false, response }] by the error formatter, and a
    failed result is either that or the rate-limit answer.  For an allowed
    call this covers a validation failure (no call is made), a failed fetch
    and an answer that is not 2xx (one request, the memory store is not
    reached), and a memory store that fails, which is awaited: its error
    becomes the result although the fetch succeeded. *)
Theorem handler_catches_every_error `{CommonUtils} (host : Host)
    (self : IKBSearchPlugin) (runtime : IAgentRuntime) (message : Memory)
    (w : World) :
  let l := snd (checkLimit (now host) (limiter w)) in
  let run := handler host self runtime message w in
  (forall e w', handlerBody host self runtime message w = (inl e, w') ->
                run = (handleApiError e, w'))
  /\ (forall e, handleApiError e
                = {| success := false; response := apiErrorResponse e |})
  /\ (success (fst run) = false ->
      fst run = rateLimitExceeded \/ exists e, fst run = handleApiError e)
  /\ (fst (checkLimit (now host) (limiter w)) = true ->
      (forall e, validateSearchQuery (text (content message)) = inl e ->
                 run = (handleApiError e, logged w l []))
      /\ (forall query,
             validateSearchQuery (text (content message)) = inr query ->
             let sport := extractSportFromQuery query in
             let date := extractDateFromQuery host query in
             let init := apiRequest (apiKey (config self)) in
             let req := HttpRequest (apiUrl sport date) init in
             (forall e, fetch host (apiUrl sport date) init = inl e ->
                        run = (handleApiError e, logged w l [req]))
             /\ (forall resp,
                    fetch host (apiUrl sport date) init = inr resp ->
                    ok resp = false ->
                    run = (handleApiError
                             (JS.mkError "Error"
                                ("IKB API error: " ++ statusText resp)),
                           logged w l [req]))
             /\ (forall resp answer,
                    fetch host (apiUrl sport date) init = inr resp ->
                    ok resp = true -> json resp = inr answer ->
                    let record := memoryRecord sport date (data answer) in
                    (forall e, getMemoryManager runtime = inl e ->
                               run = (handleApiError e,
                                      logged w l [req; GetMemoryManager]))
                    /\ (forall memoryManager e,
                           getMemoryManager runtime = inr memoryManager ->
                           createMemory memoryManager record true = inl e ->
                           run = (handleApiError e,
                                  logged w l [req; GetMemoryManager;
                                              CreateMemory record true]))))).
Proof.
  intros l run. split; [|split; [|split]].
  - intros e w' B. unfold run, handler, tryCatch. now rewrite B.
  - reflexivity.
  - unfold run, l. clear run l.
    destruct (checkLimit (now host) (limiter w)) as [[|] l] eqn:C.
    + destruct (validateSearchQuery (text (content message))) as [e|query] eqn:V.
      * rewrite (handler_invalid host self runtime message w l e C V).
        intros _. right. now exists e.
      * rewrite (handler_allowed host self runtime message w l query C V).
        cbv zeta.
        repeat match goal with
               | |- context [match ?x with _ => _ end] => destruct x
               end;
          cbn [fst success negb]; intros F; try discriminate F;
          right; eexists; reflexivity.
    + rewrite (handler_denied host self runtime message w l C). intros _. now left.
  - unfold run, l. clear run l.
    intros D. destruct (checkLimit (now host) (limiter w)) as [allowed l] eqn:C.
    change (fst (allowed, l)) with allowed in D. subst allowed.
    change (snd (true, l)) with l. split.
    + intros e V. apply (handler_invalid host self runtime message w l e C V).
    + intros query V. cbv zeta.
      pose proof (handler_allowed host self runtime message w l query C V) as R.
      cbv zeta in R. rewrite R. clear R.
      split; [|split].
      * intros e ->. reflexivity.
      * intros resp -> ->. reflexivity.
      * intros resp answer -> -> ->. split.
        -- intros e ->. reflexivity.
        -- intros memoryManager e -> E. cbn [negb]. now rewrite E.
Qed.

(** On the sample host a memory store that refuses the record fails the
    call, after the request and the two calls to the store. *)
Lemma handler_memory_failure_witness :
  fst (handler Sample.oneGameHost (Sample.plugin None None) Sample.failingRuntime
         (Sample.ask "NFL stats from 2024-12-22") Sample.freshWorld)
  = {| success := false; response := "memory store unavailable" |}.
Proof.
  pose proof (handler_catches_every_error Sample.oneGameHost (Sample.plugin None None)
                Sample.failingRuntime (Sample.ask "NFL stats from 2024-12-22")
                Sample.freshWorld) as K.
  cbv zeta in K. destruct K as (_ & _ & _ & Allowed).
  destruct (Allowed eq_refl) as (_ & Valid).
  destruct (Valid "NFL stats from 2024-12-22" eq_refl) as (_ & _ & Fetched).
  destruct (Fetched _ _ eq_refl eq_refl eq_refl) as (_ & Store).
  rewrite (Store _ (JS.mkError "Error" "memory store unavailable") eq_refl eq_refl).
  reflexivity.
Defined.

(** C5, as stated, fails. On the sample host the fetch succeeds and
    answers with zero game records, yet the handler reports a failure: the
    memory write is awaited before the formatting and the store refuses the
    record. *)
Lemma no_games_but_memory_fails_counterexample :
  fetch Sample.noGamesHost (apiUrl "nba" "2024-12-15") (apiRequest "secret")
    = inr {| ok := true; statusText := "OK";
             json := inr {| data := []; metadata_count := 0 |} |}
  /\ fst (handler Sample.noGamesHost (Sample.plugin None None)
            Sample.failingRuntime (Sample.ask "latest scores") Sample.freshWorld)
     = {| success := false; response := "memory store unavailable" |}
  /\ ~ (forall (utils : CommonUtils) (host : Host) (self : IKBSearchPlugin)
               (runtime : IAgentRuntime) (message : Memory) (w : World)
               (query : string) (resp : Response) (answer : IKBSearchResponse),
           fst (checkLimit (now host) (limiter w)) = true ->
           validateSearchQuery (text (content message)) = inr query ->
           fetch host (apiUrl (extractSportFromQuery query)
                              (extractDateFromQuery host query))
                 (apiRequest (apiKey (config self))) = inr resp ->
           ok resp = true -> json resp = inr answer -> data answer = [] ->
           success (fst (handler host self runtime message w)) = true).
Proof.
  split; [reflexivity|]. split; [reflexivity|].
  intros Claim.
  specialize (Claim Sample.utils Sample.noGamesHost (Sample.plugin None None)
                Sample.failingRuntime (Sample.ask "latest scores")
                Sample.freshWorld "latest scores" _ _
                eq_refl eq_refl eq_refl eq_refl eq_refl eq_refl).
  vm_compute in Claim. discriminate Claim.
Qed.

(** C5, amended. When the fetch answers with zero game records and the
    memory store accepts the (empty) record, the formatted snippet is the
    empty string and the handler reports success. *)
Theorem handler_no_games_succeeds `{CommonUtils} (host : Host)
    (self : IKBSearchPlugin) (runtime : IAgentRuntime) (message : Memory)
    (w : World) (query : string) (resp : Response) (answer : IKBSearchResponse)
    (memoryManager : IMemoryManager) :
  let sport := extractSportFromQuery query in
  let date := extractDateFromQuery host query in
  fst (checkLimit (now host) (limiter w)) = true ->
  validateSearchQuery (text (content message)) = inr query ->
  fetch host (apiUrl sport date) (apiRequest (apiKey (config self))) = inr resp ->
  ok resp = true -> json resp = inr answer -> data answer = [] ->
  getMemoryManager runtime = inr memoryManager ->
  createMemory memoryManager (memoryRecord sport date []) true = inr tt ->
  viewOfFirstGame host self (data answer) = inr ""
  /\ fst (handler host self runtime message w)
     = {| success := true;
          response := formatSearchResults [searchResultFor self sport date ""] |}
  /\ snippet (searchResultFor self sport date "") = "".
Proof.
  intros sport date A V F O J D G M.
  destruct (checkLimit (now host) (limiter w)) as [allowed l] eqn:C.
  change (fst (allowed, l)) with allowed in A. subst allowed.
  pose proof (handler_allowed host self runtime message w l query C V) as R.
  cbv zeta in R. fold sport date in R.
  rewrite F, O, J, G, D, M in R. cbn [negb viewOfFirstGame] in R.
  rewrite R, D. repeat split.
Qed.

(** On the sample host with no games and a memory store that accepts. *)
Lemma handler_no_games_witness :
  fst (handler Sample.noGamesHost (Sample.plugin None None) Sample.goodRuntime
         (Sample.ask "latest scores") Sample.freshWorld)
  = {| success := true;
       response :=
         formatSearchResults
           [searchResultFor (Sample.plugin None None) "nba" "2024-12-15" ""] |}.
Proof.
  pose proof (handler_no_games_succeeds Sample.noGamesHost (Sample.plugin None None)
                Sample.goodRuntime (Sample.ask "latest scores") Sample.freshWorld
                "latest scores" _ _ _
                eq_refl eq_refl eq_refl eq_refl eq_refl eq_refl eq_refl eq_refl)
    as (_ & R & _).
  exact R.
Defined.

(** C7, as stated, fails. The plugin is configured with the filters nfl
    and 2024-01-01, the query names no sport and no date, and the one
    request goes to nba and the date of the clock. *)
Lemma configured_filters_unused_counterexample :
  filters (config (Sample.plugin None (Some Sample.footballFilters)))
    = Some {| filter_sport := "nfl"; filter_date := "2024-01-01" |}
  /\ requestedUrls
       (trace (snd (handler Sample.noGamesHost
                      (Sample.plugin None (Some Sample.footballFilters))
                      Sample.goodRuntime (Sample.ask "latest scores")
                      Sample.freshWorld)))
     = ["https://api.ikb.gg/ai/nba/2024-12-15"]
  /\ ~ (forall (utils : CommonUtils) (host : Host) (self : IKBSearchPlugin)
               (runtime : IAgentRuntime) (message : Memory) (w : World)
               (query : string) (f : Filters),
           filters (config self) = Some f ->
           fst (checkLimit (now host) (limiter w)) = true ->
           validateSearchQuery (text (content message)) = inr query ->
           ~ (ContainsIgnoringCase query "nfl"
              \/ ContainsIgnoringCase query "football") ->
           ~ (ContainsIgnoringCase query "nba"
              \/ ContainsIgnoringCase query "basketball") ->
           (forall j m, OccursAt m query j -> ~ IsDateText m) ->
           requestedUrls (trace (snd (handler host self runtime message w)))
           = (requestedUrls (trace w)
              ++ [apiUrl (filter_sport f) (filter_date f)])%list).
Proof.
  split; [reflexivity|]. split; [reflexivity|].
  intros Claim.
  assert (forall kw, JS.toLowerCase kw = kw ->
                     JS.includes (JS.toLowerCase "latest scores") kw = false ->
                     ~ ContainsIgnoringCase "latest scores" kw) as Absent.
  { intros kw L I C. apply (includes_lower_iff _ _ L) in C. congruence. }
  assert (~ (ContainsIgnoringCase "latest scores" "nfl"
             \/ ContainsIgnoringCase "latest scores" "football")) as NoNfl.
  { intros [C|C]; revert C; apply Absent; reflexivity. }
  assert (~ (ContainsIgnoringCase "latest scores" "nba"
             \/ ContainsIgnoringCase "latest scores" "basketball")) as NoNba.
  { intros [C|C]; revert C; apply Absent; reflexivity. }
  assert (forall j m, OccursAt m "latest scores" j -> ~ IsDateText m) as NoDate.
  { apply matchFirst_None_no_date. reflexivity. }
  pose proof (Claim Sample.utils Sample.noGamesHost
                (Sample.plugin None (Some Sample.footballFilters))
                Sample.goodRuntime (Sample.ask "latest scores")
                Sample.freshWorld "latest scores" Sample.footballFilters
                eq_refl eq_refl eq_refl NoNfl NoNba NoDate) as E.
  vm_compute in E. discriminate E.
Qed.

Section Filters.
Context `{CommonUtils}.
Variable host : Host.

Lemma requestedUrls_logged (w : World) (l : RateLimiter) (u : string)
    (init : RequestInit) (rest : list Event) :
  requestedUrls rest = [] ->
  requestedUrls (trace (logged w l (HttpRequest u init :: rest)))
  = (requestedUrls (trace w) ++ [u])%list.
Proof.
  intros M. unfold logged, requestedUrls in *. cbn [trace].
  rewrite flat_map_app. cbn [flat_map app]. now rewrite M.
Qed.

(** An allowed call with a valid query makes exactly one request, for the
    sport and the date read from the query. *)
Lemma handler_request (self : IKBSearchPlugin) (runtime : IAgentRuntime)
    (message : Memory) (w : World) (query : string) :
  fst (checkLimit (now host) (limiter w)) = true ->
  validateSearchQuery (text (content message)) = inr query ->
  requestedUrls (trace (snd (handler host self runtime message w)))
  = (requestedUrls (trace w)
     ++ [apiUrl (extractSportFromQuery query) (extractDateFromQuery host query)])%list.
Proof.
  intros A V.
  destruct (checkLimit (now host) (limiter w)) as [allowed l] eqn:C.
  change (fst (allowed, l)) with allowed in A. subst allowed.
  pose proof (handler_allowed host self runtime message w l query C V) as R.
  cbv zeta in R. rewrite R. clear R.
  repeat match goal with
         | |- context [match ?x with _ => _ end] => destruct x
         end;
    cbn [snd]; now apply requestedUrls_logged.
Qed.

End Filters.

(** C7, amended. The configured filters are not consulted: the handler
    behaves the same whatever [filters] holds; an allowed call with a valid
    query requests the sport and the date extracted from the query text,
    which are nba when the text names no football keyword and the date of
    the clock when the text holds no date. *)
Theorem handler_ignores_filters `{CommonUtils} (host : Host)
    (cfg : IKBPluginConfig) (f : option Filters) (runtime : IAgentRuntime)
    (message : Memory) (w : World) :
  let self := {| config := withFilters cfg f |} in
  handler host self runtime message w
    = handler host {| config := cfg |} runtime message w
  /\ (forall query,
         fst (checkLimit (now host) (limiter w)) = true ->
         validateSearchQuery (text (content message)) = inr query ->
         requestedUrls (trace (snd (handler host self runtime message w)))
         = (requestedUrls (trace w)
            ++ [apiUrl (extractSportFromQuery query)
                       (extractDateFromQuery host query)])%list)
  /\ (forall query,
         ~ (ContainsIgnoringCase query "nfl" \/ ContainsIgnoringCase query "football") ->
         extractSportFromQuery query = "nba")
  /\ (forall query,
         (forall j m, OccursAt m query j -> ~ IsDateText m) ->
         extractDateFromQuery host query = formatDate (now host)).
Proof.
  intros self. split; [reflexivity|]. split; [|split].
  - intros query A V. now apply handler_request.
  - apply extractSportFromQuery_default.
  - apply extractDateFromQuery_default.
Qed.

(** With the football filters configured, a query without sport and date
    is sent to nba and the date of the sample clock. *)
Lemma handler_ignores_filters_witness :
  requestedUrls
    (trace (snd (handler Sample.noGamesHost
                   {| config := withFilters (config (Sample.plugin None None))
                                  (Some Sample.footballFilters) |}
                   Sample.goodRuntime (Sample.ask "latest scores")
                   Sample.freshWorld)))
  = ["https://api.ikb.gg/ai/nba/2024-12-15"].
Proof.
  pose proof (handler_ignores_filters Sample.noGamesHost
                (config (Sample.plugin None None)) (Some Sample.footballFilters)
                Sample.goodRuntime (Sample.ask "latest scores") Sample.freshWorld)
    as K.
  cbv zeta in K. destruct K as (_ & Req & _).
  rewrite (Req "latest scores" eq_refl eq_refl). reflexivity.
Defined.

(* ================================================================== *)
(** ** More on the query interpreter *)
(* ================================================================== *)

Section InterpreterFacts.
Variable host : Host.

(** A text the pattern matches as a whole is matched at its start. *)
Lemma matchFirst_whole (re : list JS.Atom) (m : string) :
  matchesAll re m = true -> JS.matchFirst re m = Some m.
Proof.
  intros W. rewrite matchFirst_unfold.
  assert (JS.matchHere re m = Some m) as ->; [|reflexivity].
  apply matchHere_iff. split; [assumption|]. exists "".
  clear. induction m as [|c m IH]; cbn; [reflexivity | now rewrite <- IH].
Qed.

(** In the years 0 to 9999 of the clock the extracted date always has
    the shape YYYY-MM-DD. *)
Lemma extractDateFromQuery_shape (query : string) :
  0 <= JSDate.YearFromTime (now host) <= 9999 ->
  IsDateText (extractDateFromQuery host query).
Proof.
  intros Y. unfold extractDateFromQuery.
  destruct (JS.matchFirst datePattern query) as [m|] eqn:F.
  - destruct (matchFirst_Some _ _ _ F) as (i & _ & W & _).
    now apply matchesAll_datePattern.
  - rewrite formatDate_isoDate. now apply isoDate_IsDateText.
Qed.

Lemma extractSportFromQuery_values (query : string) :
  extractSportFromQuery query = "nfl" \/ extractSportFromQuery query = "nba".
Proof.
  unfold extractSportFromQuery.
  destruct (_ || _); [now left|]. destruct (_ || _); now right.
Qed.

End InterpreterFacts.

(* ================================================================== *)
(** ** Numerals and the one-decimal print of the teams view *)
(* ================================================================== *)

Section NumeralFacts.













End NumeralFacts.

(* ================================================================== *)
(** ** More on the teams view and the players view *)
(* ================================================================== *)

Section ViewFacts.


Lemma StronglySorted_app_inv {A : Type} (R : A -> A -> Prop) (l1 l2 : list A) :
  StronglySorted R (l1 ++ l2) ->
  forall a b, In a l1 -> In b l2 -> R a b.
Proof.
  induction l1 as [|x l1 IH]; intros S a b Ia Ib; [destruct Ia|].
  cbn [app] in S. apply StronglySorted_inv in S. destruct S as [S F].
  destruct Ia as [<-|Ia].
  - rewrite Forall_forall in F. apply F, in_or_app. now right.
  - now apply IH.
Qed.

Lemma filter_filter {A : Type} (p : A -> bool) (l : list A) :
  filter p (filter p l) = filter p l.
Proof.
  induction l as [|x l IH]; cbn [filter]; [reflexivity|].
  destruct (p x) eqn:P; [|assumption]. cbn [filter]. now rewrite P, IH.
Qed.

Lemma playerBlock_nonempty (p : Player.t) : playerBlock p <> "".
Proof.
  unfold playerBlock, JS.join. cbn [String.concat].
  rewrite !append_assoc. destruct (Player.name p); discriminate.
Qed.

Lemma append_empty_inv (a b : string) : a ++ b = "" -> a = "".
Proof. destruct a; [reflexivity | discriminate]. Qed.

Lemma join_nonempty (sep x : string) (l : list string) :
  x <> "" -> JS.join sep (x :: l) <> "".
Proof.
  intros N E. destruct l as [|y l]; [now apply N|].
  rewrite join_cons in E. now apply append_empty_inv in E.
Qed.


End ViewFacts.



(** X3. The players view is a top ten: it has as many blocks as players
    who played, but no more than ten, and no player who played and is left
    out has more fantasy points than a player who is listed. *)
Theorem formatPlayerStats_top_ten (d : IKBGameData) :
  exists shown omitted : list Player.t,
    formatPlayerStats d = JS.join (JS.LF ++ JS.LF) (map playerBlock shown)
    /\ Permutation (shown ++ omitted) (filter Player.played (players d))
    /\ List.length shown
       = Nat.min 10 (List.length (filter Player.played (players d)))
    /\ (forall p q, In p shown -> In q omitted ->
                    (rankingPoints q <= rankingPoints p)%Q).
Proof.
  set (ranked := JS.sort (descendingBy rankingPoints)
                   (filter Player.played (players d))).
  exists (firstn 10 ranked), (skipn 10 ranked).
  split; [apply formatPlayerStats_unfold|].
  split; [rewrite firstn_skipn; apply (sort_Permutation rankingPoints)|].
  split.
  - rewrite length_firstn. f_equal.
    apply Permutation_length, (sort_Permutation rankingPoints).
  - intros p q Ip Iq.
    apply (StronglySorted_app_inv
             (fun a b => (rankingPoints b <= rankingPoints a)%Q)
             (firstn 10 ranked) (skipn 10 ranked)); try assumption.
    rewrite firstn_skipn. apply (sort_sorted rankingPoints).
Qed.

(** Eleven players who all played: one of them is left out, and it has no
    more points than a listed one. *)
Lemma formatPlayerStats_top_ten_witness :
  exists p q,
    (rankingPoints q <= rankingPoints p)%Q
    /\ In q (map (fun k => Sample.player "P" true 0 (Some (inject_Z k)))
               [3; 9; 1; 11; 5; 7; 2; 10; 4; 8; 6]).
Proof.
  set (d := {| game := Sample.theGame; teams := [];
               players := map (fun k => Sample.player "P" true 0
                                          (Some (inject_Z k)))
                            [3; 9; 1; 11; 5; 7; 2; 10; 4; 8; 6] |}).
  destruct (formatPlayerStats_top_ten d) as (shown & omitted & _ & P & L & Top).
  assert (List.length (filter Player.played (players d)) = 11%nat) as N
    by reflexivity.
  pose proof (Permutation_length P) as Len.
  rewrite length_app, N in Len. rewrite N in L. change (Nat.min 10 11) with 10%nat in L.
  destruct shown as [|p shown]; [discriminate L|].
  destruct omitted as [|q omitted]; [cbn [List.length] in L, Len; lia|].
  exists p, q. split.
  - apply Top; now left.
  - assert (In q (filter Player.played (players d))) as I
      by (apply (Permutation_in q P), in_or_app; right; now left).
    apply filter_In in I. exact (proj1 I).
Defined.

(** X4. Players who did not play leave no mark on the players view: it is
    the view of the record without them, and it is empty exactly when
    nobody played. *)
Theorem formatPlayerStats_only_played (d : IKBGameData) :
  formatPlayerStats d
  = formatPlayerStats {| game := game d; teams := teams d;
                         players := filter Player.played (players d) |}
  /\ (formatPlayerStats d = "" <-> filter Player.played (players d) = []).
Proof.
  split.
  - rewrite !formatPlayerStats_unfold. cbn [players].
    now rewrite filter_filter.
  - rewrite formatPlayerStats_unfold.
    pose proof (sort_Permutation rankingPoints (filter Player.played (players d))) as P.
    destruct (filter Player.played (players d)) as [|x l] eqn:F.
    + split; reflexivity.
    + split; [|discriminate]. intros E. exfalso.
      destruct (JS.sort _ (x :: l)) as [|y r] eqn:S.
      * apply Permutation_nil in P. discriminate.
      * cbn [firstn map] in E. revert E. apply join_nonempty, playerBlock_nonempty.
Qed.

(** Three players of whom one did not play: two blocks, and the view is
    not empty. *)
Lemma formatPlayerStats_only_played_witness :
  formatPlayerStats Sample.record <> "".
Proof.
  intros E.
  apply (proj2 (formatPlayerStats_only_played Sample.record)) in E.
  discriminate E.
Defined.

(* ================================================================== *)
(** ** More on the handler: the calls it makes and when it succeeds *)
(* ================================================================== *)

Section HandlerFacts.
Context `{CommonUtils}.
Variable host : Host.
Variable self : IKBSearchPlugin.
Variable runtime : IAgentRuntime.
Variable message : Memory.


Lemma logged_trace (w : World) (l : RateLimiter) (evs : list Event) :
  trace (logged w l evs) = (trace w ++ evs)%list.
Proof. reflexivity. Qed.

Lemma logged_limiter (w : World) (l : RateLimiter) (evs : list Event) :
  limiter (logged w l evs) = l.
Proof. reflexivity. Qed.

Lemma memoryCalls_logged_request (w : World) (l : RateLimiter) (u : string)
    (init : RequestInit) (rest : list Event) :
  memoryCalls (trace (logged w l (HttpRequest u init :: rest)))
  = (memoryCalls (trace w) ++ memoryCalls rest)%list.
Proof. unfold logged, memoryCalls. cbn [trace]. now rewrite filter_app. Qed.

End HandlerFacts.

(** X5. On every call the handler only adds to the log of external calls,
    and what it adds is a beginning of one fixed sequence: one GET request
    for nfl or nba that carries the API key as bearer token, then the
    request for the memory manager, then one memory write for the same sport
    and date with embedding asked for.  So there is never a second request,
    and never a memory call without a request before it. *)
Theorem handler_call_protocol `{CommonUtils} (host : Host) (self : IKBSearchPlugin)
    (runtime : IAgentRuntime) (message : Memory) (w : World) :
  exists (evs rest : list Event) (sport date : string) (games : list IKBGameData),
    trace (snd (handler host self runtime message w)) = (trace w ++ evs)%list
    /\ (sport = "nfl" \/ sport = "nba")
    /\ (evs ++ rest)%list
       = [ HttpRequest (apiUrl sport date) (apiRequest (apiKey (config self)));
           GetMemoryManager;
           CreateMemory (memoryRecord sport date games) true ].
Proof.
  assert (forall (l : RateLimiter) (evs : list Event) (r : ActionResult)
                 (sport date : string) (games : list IKBGameData),
             (sport = "nfl" \/ sport = "nba") ->
             (exists rest,
                 (evs ++ rest)%list
                 = [ HttpRequest (apiUrl sport date)
                       (apiRequest (apiKey (config self)));
                     GetMemoryManager;
                     CreateMemory (memoryRecord sport date games) true ]) ->
             handler host self runtime message w = (r, logged w l evs) ->
             exists (evs rest : list Event) (sport date : string)
                    (games : list IKBGameData),
               trace (snd (handler host self runtime message w))
               = (trace w ++ evs)%list
               /\ (sport = "nfl" \/ sport = "nba")
               /\ (evs ++ rest)%list
                  = [ HttpRequest (apiUrl sport date)
                        (apiRequest (apiKey (config self)));
                      GetMemoryManager;
                      CreateMemory (memoryRecord sport date games) true ])
    as Conclude.
  { intros l evs r sport date games S [rest P] E.
    exists evs, rest, sport, date, games. rewrite E. repeat split; assumption. }
  destruct (checkLimit (now host) (limiter w)) as [[|] l] eqn:C.
  - destruct (validateSearchQuery (text (content message))) as [e|query] eqn:V.
    + apply (Conclude l [] (handleApiError e) "nfl" "" []);
        [now left | eexists; reflexivity|].
      apply (handler_invalid host self runtime message w l e C V).
    + pose proof (handler_allowed host self runtime message w l query C V) as R.
      cbv zeta in R.
      set (sport := extractSportFromQuery query) in *.
      set (date := extractDateFromQuery host query) in *.
      assert (sport = "nfl" \/ sport = "nba") as S
        by apply extractSportFromQuery_values.
      destruct (fetch host _ _) as [e|resp];
        [refine (Conclude l _ _ sport date [] S _ R); eexists; reflexivity|].
      destruct (ok resp); cbn [negb] in R;
        [|refine (Conclude l _ _ sport date [] S _ R); eexists; reflexivity].
      destruct (json resp) as [e|answer];
        [refine (Conclude l _ _ sport date [] S _ R); eexists; reflexivity|].
      destruct (getMemoryManager runtime) as [e|memoryManager];
        [refine (Conclude l _ _ sport date (data answer) S _ R); eexists; reflexivity|].
      cbv zeta in R.
      destruct (createMemory memoryManager _ true) as [e|[]];
        [refine (Conclude l _ _ sport date (data answer) S _ R); eexists; reflexivity|].
      destruct (viewOfFirstGame host self (data answer));
        refine (Conclude l _ _ sport date (data answer) S _ R); eexists; reflexivity.
  - apply (Conclude l [] rateLimitExceeded "nfl" "" []);
      [now left | eexists; reflexivity|].
    apply (handler_denied host self runtime message w l C).
Qed.



(** X7. Every call consults the rate limiter exactly once, before anything
    else: whatever happens afterwards (a denied call, an invalid query, a
    failed fetch, a failed memory write, a success), the limiter is left in
    the state of that one check, so rejected queries count against the
    limit too. *)
Theorem handler_consults_limiter_once `{CommonUtils} (host : Host)
    (self : IKBSearchPlugin) (runtime : IAgentRuntime) (message : Memory)
    (w : World) :
  limiter (snd (handler host self runtime message w))
  = snd (checkLimit (now host) (limiter w)).
Proof.
  destruct (checkLimit (now host) (limiter w)) as [[|] l] eqn:C; cbn [snd].
  - destruct (validateSearchQuery (text (content message))) as [e|query] eqn:V.
    + now rewrite (handler_invalid host self runtime message w l e C V).
    + rewrite (handler_allowed host self runtime message w l query C V). cbv zeta.
      repeat match goal with
             | |- context [match ?x with _ => _ end] => destruct x
             end; reflexivity.
  - now rewrite (handler_denied host self runtime message w l C).
Qed.

(** X8. [validate] and the handler agree: a message that [validate]
    rejects makes the handler fail without any external call, and when the
    limiter allows the call a message that [validate] accepts leads to
    exactly one request. *)
Theorem validate_gates_handler `{CommonUtils} (host : Host)
    (self : IKBSearchPlugin) (runtime : IAgentRuntime) (message : Memory)
    (w : World) :
  (validate message = false ->
   success (fst (handler host self runtime message w)) = false
   /\ trace (snd (handler host self runtime message w)) = trace w)
  /\ (validate message = true ->
      fst (checkLimit (now host) (limiter w)) = true ->
      exists u,
        requestedUrls (trace (snd (handler host self runtime message w)))
        = (requestedUrls (trace w) ++ [u])%list).
Proof.
  unfold validate.
  destruct (validateSearchQuery (text (content message))) as [e|query] eqn:V;
    cbn [Result.bind Result.tryCatch]; split; try discriminate.
  - intros _. destruct (checkLimit (now host) (limiter w)) as [[|] l] eqn:C.
    + rewrite (handler_invalid host self runtime message w l e C V).
      cbn [fst snd]. rewrite logged_trace, app_nil_r. now split.
    + rewrite (handler_denied host self runtime message w l C).
      cbn [fst snd]. rewrite logged_trace, app_nil_r. now split.
  - intros _ A. eexists. now apply (handler_request host self runtime message w query).
Qed.

(** The empty query is rejected by the sample validator, and the handler
    fails on it without a call. *)
Lemma validate_gates_handler_witness :
  success (fst (handler Sample.oneGameHost (Sample.plugin None None)
                  Sample.goodRuntime (Sample.ask "") Sample.freshWorld)) = false.
Proof.
  apply (proj1 (validate_gates_handler Sample.oneGameHost (Sample.plugin None None)
                  Sample.goodRuntime (Sample.ask "") Sample.freshWorld)).
  reflexivity.
Defined.




(** X10. The memory store is contacted only after the fetch has answered
    2xx with a body that parsed: when the call is denied, the query is
    invalid, the network fails, the status is not 2xx or the body does not
    parse, nothing reaches the store. *)
Theorem handler_memory_only_after_answer `{CommonUtils} (host : Host)
    (self : IKBSearchPlugin) (runtime : IAgentRuntime) (message : Memory)
    (w : World) :
  memoryCalls (trace (snd (handler host self runtime message w)))
    <> memoryCalls (trace w) ->
  exists query resp answer,
    fst (checkLimit (now host) (limiter w)) = true
    /\ validateSearchQuery (text (content message)) = inr query
    /\ fetch host (apiUrl (extractSportFromQuery query)
                          (extractDateFromQuery host query))
             (apiRequest (apiKey (config self))) = inr resp
    /\ ok resp = true /\ json resp = inr answer.
Proof.
  intros Changed.
  destruct (checkLimit (now host) (limiter w)) as [[|] l] eqn:C.
  - destruct (validateSearchQuery (text (content message))) as [e|query] eqn:V.
    + exfalso. apply Changed.
      rewrite (handler_invalid host self runtime message w l e C V).
      cbn [snd]. now rewrite logged_trace, app_nil_r.
    + pose proof (handler_allowed host self runtime message w l query C V) as R.
      cbv zeta in R. rewrite R in Changed. clear R.
      destruct (fetch host _ _) as [e|resp] eqn:F.
      { exfalso. apply Changed. cbn [snd].
        rewrite memoryCalls_logged_request. apply app_nil_r. }
      destruct (ok resp) eqn:O; cbn [negb] in Changed.
      2:{ exfalso. apply Changed. cbn [snd].
          rewrite memoryCalls_logged_request. apply app_nil_r. }
      destruct (json resp) as [e|answer] eqn:J.
      { exfalso. apply Changed. cbn [snd].
        rewrite memoryCalls_logged_request. apply app_nil_r. }
      exists query, resp, answer. repeat split; assumption.
  - exfalso. apply Changed.
    rewrite (handler_denied host self runtime message w l C).
    cbn [snd]. now rewrite logged_trace, app_nil_r.
Qed.

(** On the sample host the store is reached, and the fetch had answered
    with a parsed body. *)
Lemma handler_memory_only_after_answer_witness :
  exists query resp answer,
    validateSearchQuery (text (content (Sample.ask "NFL stats from 2024-12-22")))
      = inr query
    /\ fetch Sample.oneGameHost
         (apiUrl (extractSportFromQuery query)
                 (extractDateFromQuery Sample.oneGameHost query))
         (apiRequest (apiKey (config (Sample.plugin None None)))) = inr resp
    /\ json resp = inr answer.
Proof.
  assert (memoryCalls
            (trace (snd (handler Sample.oneGameHost (Sample.plugin None None)
                           Sample.goodRuntime
                           (Sample.ask "NFL stats from 2024-12-22")
                           Sample.freshWorld)))
          <> memoryCalls (trace Sample.freshWorld)) as Changed
    by (vm_compute; discriminate).
  destruct (handler_memory_only_after_answer Sample.oneGameHost
              (Sample.plugin None None) Sample.goodRuntime
              (Sample.ask "NFL stats from 2024-12-22") Sample.freshWorld Changed)
    as (query & resp & answer & _ & V & F & _ & J).
  exists query, resp, answer. repeat split; assumption.
Defined.

(** X11. No text of the user reaches the address of the request except
    through the two extractors: in the years 0 to 9999 of the clock, the one
    request of an allowed call with a valid query goes to the API address
    followed by nfl or nba, a slash, and a text of the shape YYYY-MM-DD. *)
Theorem handler_request_address `{CommonUtils} (host : Host)
    (self : IKBSearchPlugin) (runtime : IAgentRuntime) (message : Memory)
    (w : World) (query : string) :
  0 <= JSDate.YearFromTime (now host) <= 9999 ->
  fst (checkLimit (now host) (limiter w)) = true ->
  validateSearchQuery (text (content message)) = inr query ->
  exists sport date : string,
    requestedUrls (trace (snd (handler host self runtime message w)))
    = (requestedUrls (trace w)
       ++ [("https://api.ikb.gg/ai/" ++ sport ++ "/" ++ date)%string])%list
    /\ (sport = "nfl" \/ sport = "nba")
    /\ IsDateText date.
Proof.
  intros Y A V.
  exists (extractSportFromQuery query), (extractDateFromQuery host query).
  split; [now apply handler_request|].
  split; [apply extractSportFromQuery_values|].
  now apply extractDateFromQuery_shape.
Qed.

(** A query with words around the keyword and the date. *)
Lemma handler_request_address_witness :
  requestedUrls
    (trace (snd (handler Sample.oneGameHost (Sample.plugin None None)
                   Sample.goodRuntime
                   (Sample.ask "any football on 2024-13-40 ?../evil")
                   Sample.freshWorld)))
  = ["https://api.ikb.gg/ai/nfl/2024-13-40"].
Proof.
  assert (0 <= JSDate.YearFromTime (now Sample.oneGameHost) <= 9999) as Y
    by (vm_compute; split; discriminate).
  destruct (handler_request_address Sample.oneGameHost (Sample.plugin None None)
              Sample.goodRuntime
              (Sample.ask "any football on 2024-13-40 ?../evil")
              Sample.freshWorld "any football on 2024-13-40 ?../evil"
              Y eq_refl eq_refl)
    as (sport & date & R & _).
  reflexivity.
Defined.

(* ================================================================== *)
(** ** More on the extractors and on the default date *)
(* ================================================================== *)

Section ExtractorFacts.

Lemma matchHere_append (re : list JS.Atom) (s m post : string) :
  JS.matchHere re s = Some m -> JS.matchHere re (s ++ post) = Some m.
Proof.
  intros M. apply matchHere_iff in M. destruct M as [W [r ->]].
  apply matchHere_iff. split; [assumption|].
  exists (r ++ post). apply append_assoc.
Qed.

Lemma matchHere_Some_length (re : list JS.Atom) (s m : string) :
  JS.matchHere re s = Some m -> (List.length re <= String.length s)%nat.
Proof.
  revert s m. induction re as [|a re IH]; intros s m; cbn [JS.matchHere].
  - intros _. cbn. lia.
  - destruct s as [|c s]; [discriminate|].
    destruct (JS.atomMatches a c); [|discriminate].
    destruct (JS.matchHere re s) as [m0|] eqn:R; [|discriminate].
    intros _. specialize (IH _ _ R). cbn. lia.
Qed.

Lemma matchHere_None_append (re : list JS.Atom) (s post : string) :
  JS.matchHere re s = None -> (List.length re <= String.length s)%nat ->
  JS.matchHere re (s ++ post) = None.
Proof.
  revert s. induction re as [|a re IH]; intros s; cbn [JS.matchHere].
  - discriminate.
  - destruct s as [|c s]; [cbn; lia|].
    cbn [String.append String.length List.length].
    destruct (JS.atomMatches a c); [|reflexivity].
    destruct (JS.matchHere re s) as [m0|] eqn:R; [discriminate|].
    intros _ L. rewrite (IH s R) by lia. reflexivity.
Qed.

Lemma matchFirst_Some_length (re : list JS.Atom) (s m : string) :
  JS.matchFirst re s = Some m -> (List.length re <= String.length s)%nat.
Proof.
  induction s as [|c s IH]; rewrite matchFirst_unfold;
    destruct (JS.matchHere re _) as [m0|] eqn:R;
    try (intros _; now apply matchHere_Some_length in R); [discriminate|].
  intros F. specialize (IH F). cbn. lia.
Qed.

(** Text after a query that holds a match does not change the match. *)
Lemma matchFirst_append (re : list JS.Atom) (s m post : string) :
  JS.matchFirst re s = Some m -> JS.matchFirst re (s ++ post) = Some m.
Proof.
  induction s as [|c s IH]; rewrite matchFirst_unfold;
    destruct (JS.matchHere re _) as [m0|] eqn:R.
  - intros [= <-]. rewrite matchFirst_unfold.
    now rewrite (matchHere_append _ _ _ post R).
  - discriminate.
  - intros [= <-]. rewrite matchFirst_unfold.
    now rewrite (matchHere_append _ _ _ post R).
  - intros F. pose proof (matchFirst_Some_length _ _ _ F) as L.
    rewrite matchFirst_unfold.
    rewrite (matchHere_None_append re (String c s) post R) by (cbn; lia).
    cbn [String.append]. now apply IH.
Qed.

Lemma ContainsIgnoringCase_around (q kw pre post : string) :
  ContainsIgnoringCase q kw -> ContainsIgnoringCase (pre ++ q ++ post) kw.
Proof.
  intros (a & mid & b & -> & E).
  exists (pre ++ a), mid, (b ++ post). split; [|assumption].
  now rewrite !append_assoc.
Qed.

Lemma append_inv_length (a b a' b' : string) :
  a ++ b = a' ++ b' -> String.length a = String.length a' -> a = a' /\ b = b'.
Proof.
  revert a'. induction a as [|x a IH]; intros [|y a'] E L; cbn in *;
    try discriminate.
  - now split.
  - injection E as -> E. injection L as L.
    destruct (IH _ E L) as [-> ->]. now split.
Qed.

End ExtractorFacts.

(** X12. Date extraction is idempotent and, with a date in the query,
    does not look at the clock: in the years 0 to 9999 of the clock its
    result always has the shape YYYY-MM-DD and extracting from the result
    gives the result again; a query that holds a date gives the same date
    on every host. *)
Theorem extractDateFromQuery_idempotent (host other : Host) (query : string) :
  (0 <= JSDate.YearFromTime (now host) <= 9999 ->
   IsDateText (extractDateFromQuery host query)
   /\ extractDateFromQuery host (extractDateFromQuery host query)
      = extractDateFromQuery host query)
  /\ ((exists i m, OccursAt m query i /\ IsDateText m) ->
      extractDateFromQuery other query = extractDateFromQuery host query).
Proof.
  split.
  - intros Y. pose proof (extractDateFromQuery_shape host query Y) as S.
    split; [assumption|].
    apply matchesAll_datePattern, matchFirst_whole in S.
    unfold extractDateFromQuery at 1. now rewrite S.
  - intros (i & m & O & D). unfold extractDateFromQuery.
    destruct (JS.matchFirst datePattern query) as [m0|] eqn:F; [reflexivity|].
    exfalso. now apply (proj1 (matchFirst_None_no_date query) F i m O).
Qed.

(** On the sample host, whose clock reads 2024. *)
Lemma extractDateFromQuery_idempotent_witness :
  extractDateFromQuery Sample.oneGameHost
    (extractDateFromQuery Sample.oneGameHost "tonight")
  = extractDateFromQuery Sample.oneGameHost "tonight".
Proof.
  apply (proj1 (extractDateFromQuery_idempotent Sample.oneGameHost
                  Sample.noGamesHost "tonight")).
  vm_compute. split; discriminate.
Defined.

(** X13. Once a query holds a date, text added after it does not change
    the extracted date. *)
Theorem extractDateFromQuery_append (host : Host) (query post : string) :
  (exists i m, OccursAt m query i /\ IsDateText m) ->
  extractDateFromQuery host (query ++ post) = extractDateFromQuery host query.
Proof.
  intros (i & m & O & D). unfold extractDateFromQuery.
  destruct (JS.matchFirst datePattern query) as [m0|] eqn:F.
  - now rewrite (matchFirst_append _ _ _ post F).
  - exfalso. now apply (proj1 (matchFirst_None_no_date query) F i m O).
Qed.

(** A second date after the first is not looked at. *)
Lemma extractDateFromQuery_append_witness :
  extractDateFromQuery Sample.oneGameHost ("NBA 2024-12-15" ++ " or 2024-12-22")
  = extractDateFromQuery Sample.oneGameHost "NBA 2024-12-15".
Proof.
  apply extractDateFromQuery_append.
  exists 4%nat, "2024-12-15". split.
  - exists "NBA ", "". split; reflexivity.
  - apply matchesAll_datePattern. reflexivity.
Defined.

(** X14. Sport extraction yields nfl or nba and nothing else, is
    idempotent, and a football query stays one whatever text is put before
    or after it. *)
Theorem extractSportFromQuery_closed (query pre post : string) :
  (extractSportFromQuery query = "nfl" \/ extractSportFromQuery query = "nba")
  /\ extractSportFromQuery (extractSportFromQuery query)
     = extractSportFromQuery query
  /\ (extractSportFromQuery query = "nfl" ->
      extractSportFromQuery (pre ++ query ++ post) = "nfl").
Proof.
  split; [|split].
  - apply extractSportFromQuery_values.
  - destruct (extractSportFromQuery_values query) as [-> | ->]; reflexivity.
  - intros N. apply extractSportFromQuery_nfl in N.
    apply extractSportFromQuery_nfl.
    destruct N as [N|N]; [left | right]; now apply ContainsIgnoringCase_around.
Qed.

(** A football query with a basketball question put before it. *)
Lemma extractSportFromQuery_closed_witness :
  extractSportFromQuery ("NBA? no: " ++ "Football" ++ " tonight") = "nfl".
Proof.
  apply (extractSportFromQuery_closed "Football" "NBA? no: " " tonight").
  reflexivity.
Defined.

Section DayFacts.
Import JSDate.

(** The day number is rebuilt from the year, the month and the day of
    the month. *)
Lemma Day_decompose (t : Z) :
  Day t = DayFromYear (YearFromTime t)
          + daysBeforeMonth (MonthFromTime t) (InLeapYear t)
          + DateFromTime t - 1.
Proof.
  pose proof (DayWithinYear_bounds t) as B.
  unfold DateFromTime, MonthFromTime.
  assert (Day t = DayFromYear (YearFromTime t) + DayWithinYear t) as ->
    by (unfold DayWithinYear; lia).
  set (d := DayWithinYear t) in *. set (leap := InLeapYear t) in *.
  repeat match goal with
         | |- context [if ?a <? ?b then _ else _] => destruct (Z.ltb_spec a b)
         end; cbn [daysBeforeMonth]; lia.
Qed.

Lemma same_day_same_fields (t1 t2 : Z) :
  Day t1 = Day t2 ->
  YearFromTime t1 = YearFromTime t2
  /\ MonthFromTime t1 = MonthFromTime t2
  /\ DateFromTime t1 = DateFromTime t2.
Proof.
  intros E.
  assert (YearFromTime t1 = YearFromTime t2) as Y
    by (unfold YearFromTime; now rewrite E).
  assert (InLeapYear t1 = InLeapYear t2) as L
    by (unfold InLeapYear; now rewrite Y).
  assert (DayWithinYear t1 = DayWithinYear t2) as W
    by (unfold DayWithinYear; now rewrite E, Y).
  assert (MonthFromTime t1 = MonthFromTime t2) as M
    by (unfold MonthFromTime; now rewrite W, L).
  repeat split; try assumption.
  unfold DateFromTime. now rewrite M, W, L.
Qed.

Lemma decimalValue_zeros (k : nat) (s : string) :
  decimalValueFrom 0 (JS.repeatChar "0" k ++ s) = decimalValueFrom 0 s.
Proof. induction k as [|k IH]; [reflexivity | exact IH]. Qed.

(** A padded numeral still denotes its number. *)
Lemma pad_value (w : nat) (n : Z) : 0 <= n -> decimalValueFrom 0 (pad w n) = n.
Proof.
  intros B. unfold pad, JS.padStart.
  rewrite decimalValue_zeros. now apply digits_value.
Qed.

Lemma isDigits_length (k : nat) (s : string) :
  isDigits k s = true -> String.length s = k.
Proof. unfold isDigits. rewrite andb_true_iff, Nat.eqb_eq. tauto. Qed.

(** In the years 0 to 9999 two ISO dates are the same text only for the
    same year, month and day. *)
Lemma isoDate_injective (t1 t2 : Z) :
  0 <= YearFromTime t1 <= 9999 -> 0 <= YearFromTime t2 <= 9999 ->
  isoDate t1 = isoDate t2 ->
  YearFromTime t1 = YearFromTime t2
  /\ MonthFromTime t1 = MonthFromTime t2
  /\ DateFromTime t1 = DateFromTime t2.
Proof.
  intros Y1 Y2. unfold isoDate, isoYear.
  destruct (Z.leb_spec 0 (YearFromTime t1)); [|lia].
  destruct (Z.leb_spec (YearFromTime t1) 9999); [|lia].
  destruct (Z.leb_spec 0 (YearFromTime t2)); [|lia].
  destruct (Z.leb_spec (YearFromTime t2) 9999); [|lia].
  cbn [andb]. intros E.
  pose proof (MonthFromTime_bounds t1) as M1.
  pose proof (MonthFromTime_bounds t2) as M2.
  pose proof (DateFromTime_bounds t1) as D1.
  pose proof (DateFromTime_bounds t2) as D2.
  apply append_inv_length in E.
  2:{ rewrite !(isDigits_length 4) by (apply pad4_isDigits; lia). reflexivity. }
  destruct E as [Ey E]. cbn [String.append] in E. injection E as E.
  apply append_inv_length in E.
  2:{ rewrite !(isDigits_length 2) by (apply pad2_isDigits; lia). reflexivity. }
  destruct E as [Em E]. cbn [String.append] in E. injection E as Ed.
  apply (f_equal (decimalValueFrom 0)) in Ey, Em, Ed.
  rewrite !pad_value in Ey, Em, Ed by lia.
  repeat split; lia.
Qed.

End DayFacts.

(** X16. The default date changes exactly at UTC midnight: two readings of
    the clock on the same UTC day give the same text, and in the years 0 to
    9999 two readings that give the same text lie on the same UTC day. *)
Theorem formatDate_identifies_day (t1 t2 : Z) :
  (JSDate.Day t1 = JSDate.Day t2 -> formatDate t1 = formatDate t2)
  /\ (0 <= JSDate.YearFromTime t1 <= 9999 ->
      0 <= JSDate.YearFromTime t2 <= 9999 ->
      formatDate t1 = formatDate t2 -> JSDate.Day t1 = JSDate.Day t2).
Proof.
  rewrite !formatDate_isoDate. split.
  - intros E. destruct (same_day_same_fields t1 t2 E) as (Y & M & D).
    unfold JSDate.isoDate. now rewrite Y, M, D.
  - intros Y1 Y2 E.
    destruct (isoDate_injective t1 t2 Y1 Y2 E) as (Y & M & D).
    rewrite (Day_decompose t1), (Day_decompose t2).
    unfold JSDate.InLeapYear. now rewrite Y, M, D.
Qed.

(** The last millisecond of 2024-12-15 and the first of that day, in UTC. *)
Lemma formatDate_identifies_day_witness :
  formatDate 1734307199999 = formatDate 1734220800000
  /\ JSDate.Day 1734268245123 = JSDate.Day 1734220800000.
Proof.
  split.
  - apply (proj1 (formatDate_identifies_day 1734307199999 1734220800000)).
    reflexivity.
  - apply (proj2 (formatDate_identifies_day 1734268245123 1734220800000)).
    + vm_compute. split; discriminate.
    + vm_compute. split; discriminate.
    + reflexivity.
Defined.



(** X17. A successful response reports what was fetched: its single result
    has as address the very address that was requested, as title NFL or NBA
    followed by Stats for and the date, the score 1, the source ikb, and the
    sport and date of the request as metadata. *)
Theorem handler_result_matches_request `{CommonUtils} (host : Host)
    (self : IKBSearchPlugin) (runtime : IAgentRuntime) (message : Memory)
    (w : World) :
  success (fst (handler host self runtime message w)) = true ->
  exists (result : SearchResult) (sport date : string),
    response (fst (handler host self runtime message w))
    = formatSearchResults [result]
    /\ requestedUrls (trace (snd (handler host self runtime message w)))
       = (requestedUrls (trace w) ++ [url result])%list
    /\ url result = apiUrl sport date
    /\ ((sport = "nfl" /\ title result = "NFL Stats for " ++ date)
        \/ (sport = "nba" /\ title result = "NBA Stats for " ++ date))
    /\ score result = 1 /\ source result = "ikb"
    /\ meta_sport (metadata result) = sport
    /\ meta_date (metadata result) = date
    /\ dataType (metadata result) = searchType (config self).
Proof.
  destruct (checkLimit (now host) (limiter w)) as [[|] l] eqn:C.
  - destruct (validateSearchQuery (text (content message))) as [e|query] eqn:V.
    + rewrite (handler_invalid host self runtime message w l e C V). discriminate.
    + rewrite (handler_allowed host self runtime message w l query C V). cbv zeta.
      destruct (fetch host _ _) as [e|resp]; [discriminate|].
      destruct (ok resp); cbn [negb]; [|discriminate].
      destruct (json resp) as [e|answer]; [discriminate|].
      destruct (getMemoryManager runtime) as [e|memoryManager]; [discriminate|].
      destruct (createMemory memoryManager _ true) as [e|[]]; [discriminate|].
      destruct (viewOfFirstGame host self (data answer)) as [e|view];
        [discriminate|].
      intros _. cbn [fst snd response].
      exists (searchResultFor self (extractSportFromQuery query)
                (extractDateFromQuery host query) view),
        (extractSportFromQuery query), (extractDateFromQuery host query).
      split; [reflexivity|].
      split; [now apply requestedUrls_logged|].
      split; [reflexivity|].
      split; [|repeat split].
      cbn [searchResultFor title].
      destruct (extractSportFromQuery_values query) as [-> | ->];
        [left | right]; now split.
  - rewrite (handler_denied host self runtime message w l C). discriminate.
Qed.

(** The successful call of the sample host. *)
Lemma handler_result_matches_request_witness :
  exists result,
    response (fst (handler Sample.oneGameHost (Sample.plugin None None)
                     Sample.goodRuntime (Sample.ask "NFL stats from 2024-12-22")
                     Sample.freshWorld))
    = formatSearchResults [result]
    /\ url result = "https://api.ikb.gg/ai/nfl/2024-12-22".
Proof.
  destruct (handler_result_matches_request Sample.oneGameHost
              (Sample.plugin None None) Sample.goodRuntime
              (Sample.ask "NFL stats from 2024-12-22") Sample.freshWorld eq_refl)
    as (result & sport & date & R & U & _).
  exists result. split; [exact R|].
  vm_compute in U. now injection U.
Defined.
